(** * Status probes, pagination and SES helpers of the AWS provider

    A shallow embedding of the Go sources

      - aws/internal/service/directconnect/waiter/status.go
      - internal/service/securityhub/status.go (with the Lex waiter that
        follows it)
      - internal/service/ecs/list_pages_gen.go
      - aws/resource_aws_ses_configuration_set.go

    together with the convergence waiter that the specification describes.

    Remote calls are computations over an explicit [World]: a call reads the
    remote system, may change it, and either returns or panics (a nil
    pointer dereference). *)

From Stdlib Require Import Bool Arith Lia List.
From stdpp Require Import strings gmap.
Import ListNotations.

Local Open Scope string_scope.
Local Open Scope list_scope.

(** ** A small model of the Go runtime *)

Module Go.

(** What evaluating a Go expression gives: a value, or a run-time panic. *)
Inductive outcome (A : Type) : Type :=
| Returned (a : A)
| Panicked.
Arguments Returned {A} a.
Arguments Panicked {A}.

(** A Go pointer [*T]: [None] is the nil pointer. *)
Definition ptr (T : Type) : Type := option T.

(** The values of [interface{}] that the probes produce: the nil
    interface, a pointer of static type [*T] (which may itself be a nil
    pointer: a typed nil is not the nil interface), or a string. *)
Inductive iface (T : Type) : Type :=
| INil
| IPtr (p : ptr T)
| IStr (s : string).
Arguments INil {T}.
Arguments IPtr {T} p.
Arguments IStr {T} s.

(** [aws.StringValue] of the AWS SDK: the string a [*string] points to,
    the empty string for a nil pointer. *)
Definition StringValue (v : ptr string) : string :=
  match v with
  | Some s => s
  | None => ""
  end.

(** [aws.String]: a pointer to the given string. *)
Definition String (s : string) : ptr string := Some s.

Section Calls.
Context {World : Type}.

(** A computation that talks to the remote system. *)
Definition M (A : Type) : Type := World -> outcome A * World.

Definition ret {A} (a : A) : M A := fun w => (Returned a, w).

Definition panic {A} : M A := fun w => (Panicked, w).

Definition bind {A B} (m : M A) (k : A -> M B) : M B :=
  fun w =>
    match m w with
    | (Returned a, w') => k a w'
    | (Panicked, w') => (Panicked, w')
    end.

(** [p.f] on a pointer [p]: a nil pointer dereference panics. *)
Definition deref {T} (p : ptr T) : M T :=
  match p with
  | Some v => ret v
  | None => panic
  end.
End Calls.
Arguments M : clear implicits.

(** [err != nil] *)
Definition notnil {E} (err : option E) : bool :=
  match err with
  | Some _ => true
  | None => false
  end.

End Go.

Import Go.

(** [M] is a monad in stdpp's sense, which gives the [x ← m; k] notation. *)
#[global] Instance M_ret {World} : MRet (M World) := @ret World.
#[global] Instance M_bind {World} : MBind (M World) :=
  fun A B k m => bind m k.

(** [resource.StateRefreshFunc]: [func() (result interface{}, state string,
    err error)], here over the remote world. *)
Definition StateRefreshFunc (World error T : Type) : Type :=
  M World (iface T * string * option error).

(** A continuation is pure when its outcome does not depend on the world
    and it leaves the world as it is. *)
Definition pure_continuation {World A B} (k : A -> M World B) : Prop :=
  forall a w1 w2, fst (k a w1) = fst (k a w2) /\ snd (k a w1) = w1.

(** A computation [P] built on a fetch [F] depends only on the fetch: two
    invocations in which the fetch has the same outcome have the same
    outcome, and [P] leaves the world as the fetch left it. *)
Definition depends_only_on_fetch {World A B} (F : M World A) (P : M World B)
  : Prop :=
  (forall w1 w2, fst (F w1) = fst (F w2) -> fst (P w1) = fst (P w2))
  /\ (forall w, snd (P w) = snd (F w)).

(** ** tfresource and tfawserr

    Neither package is part of the sources at hand.  Both classify an error
    by looking for a cause of a given kind in its chain ([errors.As]), which
    finds nothing in a nil error; what they answer on a non-nil error is a
    parameter. *)

Section ErrorClassifiers.
Context {error : Type}.
Variable NotFoundErr : error -> bool.
Variable ErrCodeEqualsErr : error -> string -> bool.

(** [tfresource.NotFound(err)] *)
Definition NotFound (err : option error) : bool :=
  match err with
  | Some e => NotFoundErr e
  | None => false
  end.

(** [tfawserr.ErrCodeEquals(err, code)] *)
Definition ErrCodeEquals (err : option error) (code : string) : bool :=
  match err with
  | Some e => ErrCodeEqualsErr e code
  | None => false
  end.
End ErrorClassifiers.

(** ** Direct Connect *)

Module directconnect.
Record Connection := {
  ConnectionId : ptr string;
  ConnectionName : ptr string;
  ConnectionState : ptr string
}.
Record Gateway := {
  DirectConnectGatewayId : ptr string;
  DirectConnectGatewayName : ptr string;
  DirectConnectGatewayState : ptr string
}.
Record GatewayAssociation := {
  AssociationId : ptr string;
  AssociationState : ptr string
}.
Record Lag := {
  LagId : ptr string;
  LagName : ptr string;
  LagState : ptr string
}.
End directconnect.

(** The finders of [directconnect/finder], which the probes call. *)
Class DirectConnectFinder (World error conn : Type) := {
  ConnectionByID : conn -> string ->
    M World (ptr directconnect.Connection * option error);
  GatewayByID : conn -> string ->
    M World (ptr directconnect.Gateway * option error);
  GatewayAssociationByID : conn -> string ->
    M World (ptr directconnect.GatewayAssociation * option error);
  HostedConnectionByID : conn -> string ->
    M World (ptr directconnect.Connection * option error);
  LagByID : conn -> string ->
    M World (ptr directconnect.Lag * option error)
}.

Module directconnect_waiter.
Section Probes.
Context {World error conn : Type}.
Context {finder : DirectConnectFinder World error conn}.
Variable NotFoundErr : error -> bool.

Definition ConnectionState (c : conn) (id : string)
  : StateRefreshFunc World error directconnect.Connection :=
  '(output, err) ← ConnectionByID c id;
  if NotFound NotFoundErr err then ret (INil, "", None)
  else if notnil err then ret (INil, "", err)
  else
    o ← deref output;
    ret (IPtr output, StringValue (directconnect.ConnectionState o), None).

Definition GatewayState (c : conn) (id : string)
  : StateRefreshFunc World error directconnect.Gateway :=
  '(output, err) ← GatewayByID c id;
  if NotFound NotFoundErr err then ret (INil, "", None)
  else if notnil err then ret (INil, "", err)
  else
    o ← deref output;
    ret (IPtr output,
         StringValue (directconnect.DirectConnectGatewayState o), None).

Definition GatewayAssociationState (c : conn) (id : string)
  : StateRefreshFunc World error directconnect.GatewayAssociation :=
  '(output, err) ← GatewayAssociationByID c id;
  if NotFound NotFoundErr err then ret (INil, "", None)
  else if notnil err then ret (INil, "", err)
  else
    o ← deref output;
    ret (IPtr output, StringValue (directconnect.AssociationState o), None).

Definition HostedConnectionState (c : conn) (id : string)
  : StateRefreshFunc World error directconnect.Connection :=
  '(output, err) ← HostedConnectionByID c id;
  if NotFound NotFoundErr err then ret (INil, "", None)
  else if notnil err then ret (INil, "", err)
  else
    o ← deref output;
    ret (IPtr output, StringValue (directconnect.ConnectionState o), None).

Definition LagState (c : conn) (id : string)
  : StateRefreshFunc World error directconnect.Lag :=
  '(output, err) ← LagByID c id;
  if NotFound NotFoundErr err then ret (INil, "", None)
  else if notnil err then ret (INil, "", err)
  else
    o ← deref output;
    ret (IPtr output, StringValue (directconnect.LagState o), None).
End Probes.
End directconnect_waiter.

(** ** Security Hub *)

Module securityhub_sdk.
Record AdminAccount := {
  AccountId : ptr string;
  Status : ptr string
}.
Record StandardsSubscription := {
  StandardsArn : ptr string;
  StandardsSubscriptionArn : ptr string;
  StandardsStatus : ptr string
}.
End securityhub_sdk.

(** The finders of the Security Hub service package. *)
Class SecurityHubFinder (World error conn : Type) := {
  FindAdminAccount : conn -> string ->
    M World (ptr securityhub_sdk.AdminAccount * option error);
  FindStandardsSubscriptionByARN : conn -> string ->
    M World (ptr securityhub_sdk.StandardsSubscription * option error)
}.

Module securityhub.
Definition adminStatusNotFound : string := "NotFound".
Definition adminStatusUnknown : string := "Unknown".
Definition standardsStatusNotFound : string := "NotFound".

Section Probes.
Context {World error conn : Type}.
Context {finder : SecurityHubFinder World error conn}.
Variable NotFoundErr : error -> bool.

(** statusAdminAccountAdmin fetches the AdminAccount and its
    AdminStatus.  On the not-found branch it returns the (nil) pointer
    it was given, not the nil interface. *)
Definition statusAdminAccountAdmin (c : conn) (adminAccountID : string)
  : StateRefreshFunc World error securityhub_sdk.AdminAccount :=
  '(adminAccount, err) ← FindAdminAccount c adminAccountID;
  if notnil err then ret (INil, adminStatusUnknown, err)
  else
    match adminAccount with
    | None => ret (IPtr adminAccount, adminStatusNotFound, None)
    | Some a =>
        ret (IPtr adminAccount, StringValue (securityhub_sdk.Status a), None)
    end.

(** On not-found it returns a fake result (the empty string) and the
    status "NotFound", because INCOMPLETE is a target for both Create
    and Delete. *)
Definition statusStandardsSubscription (c : conn) (arn : string)
  : StateRefreshFunc World error securityhub_sdk.StandardsSubscription :=
  '(output, err) ← FindStandardsSubscriptionByARN c arn;
  if NotFound NotFoundErr err then ret (IStr "", standardsStatusNotFound, None)
  else if notnil err then ret (INil, "", err)
  else
    o ← deref output;
    ret (IPtr output, StringValue (securityhub_sdk.StandardsStatus o), None).
End Probes.
End securityhub.

(** ** Lex model building *)

Module lexmodelbuildingservice.
Definition ErrCodeNotFoundException : string := "NotFoundException".

Record GetBotOutput := {
  BotName : ptr string;
  BotVersion : ptr string;
  BotStatus : ptr string
}.
Record SlotTypeMetadata := {
  SlotTypeName : ptr string;
  SlotTypeVersion : ptr string
}.
Record GetSlotTypeVersionsInput := {
  SlotTypeVersionsName : ptr string
}.
Record GetSlotTypeVersionsOutput := {
  SlotTypesNextToken : ptr string;
  SlotTypes : list SlotTypeMetadata
}.
Record IntentMetadata := {
  IntentName : ptr string;
  IntentVersion : ptr string
}.
Record GetIntentVersionsInput := {
  IntentVersionsName : ptr string
}.
Record GetIntentVersionsOutput := {
  IntentsNextToken : ptr string;
  Intents : list IntentMetadata
}.
Record GetBotAliasInput := {
  AliasInputBotName : ptr string;
  AliasInputName : ptr string
}.
Record GetBotAliasOutput := {
  AliasBotName : ptr string;
  AliasBotVersion : ptr string;
  AliasName : ptr string
}.
End lexmodelbuildingservice.

(** The Lex client's operations and the finder of the service package. *)
Class LexModelBuilding (World error conn : Type) := {
  FindBotVersionByName : conn -> string -> string ->
    M World (ptr lexmodelbuildingservice.GetBotOutput * option error);
  GetSlotTypeVersions : conn -> ptr lexmodelbuildingservice.GetSlotTypeVersionsInput ->
    M World (ptr lexmodelbuildingservice.GetSlotTypeVersionsOutput * option error);
  GetIntentVersions : conn -> ptr lexmodelbuildingservice.GetIntentVersionsInput ->
    M World (ptr lexmodelbuildingservice.GetIntentVersionsOutput * option error);
  GetBotAlias : conn -> ptr lexmodelbuildingservice.GetBotAliasInput ->
    M World (ptr lexmodelbuildingservice.GetBotAliasOutput * option error)
}.

Module lex_waiter.
Import lexmodelbuildingservice.

Definition lexModelBuildingServiceStatusCreated : string := "CREATED".
Definition lexModelBuildingServiceStatusNotFound : string := "NOTFOUND".
Definition lexModelBuildingServiceStatusUnknown : string := "UNKNOWN".

Section Probes.
Context {World error conn : Type}.
Context {api : LexModelBuilding World error conn}.
Variable NotFoundErr : error -> bool.
Variable ErrCodeEqualsErr : error -> string -> bool.

Definition statusBotVersion (c : conn) (name version : string)
  : StateRefreshFunc World error GetBotOutput :=
  '(output, err) ← FindBotVersionByName c name version;
  if NotFound NotFoundErr err then ret (INil, "", None)
  else if notnil err then ret (INil, "", err)
  else
    o ← deref output;
    ret (IPtr output, StringValue (BotStatus o), None).

(** [output == nil || len(output.SlotTypes) == 0] *)
Definition noSlotTypes (output : ptr GetSlotTypeVersionsOutput) : bool :=
  match output with
  | None => true
  | Some o => Nat.eqb (length (SlotTypes o)) 0
  end.

Definition statusLexSlotType (c : conn) (id : string)
  : StateRefreshFunc World error GetSlotTypeVersionsOutput :=
  '(output, err) ←
    GetSlotTypeVersions c (Some {| SlotTypeVersionsName := Go.String id |});
  if ErrCodeEquals ErrCodeEqualsErr err ErrCodeNotFoundException
  then ret (INil, lexModelBuildingServiceStatusNotFound, None)
  else if notnil err then ret (INil, lexModelBuildingServiceStatusUnknown, err)
  else if noSlotTypes output
  then ret (INil, lexModelBuildingServiceStatusNotFound, None)
  else ret (IPtr output, lexModelBuildingServiceStatusCreated, None).

(** [output == nil || len(output.Intents) == 0] *)
Definition noIntents (output : ptr GetIntentVersionsOutput) : bool :=
  match output with
  | None => true
  | Some o => Nat.eqb (length (Intents o)) 0
  end.

Definition statusLexIntent (c : conn) (id : string)
  : StateRefreshFunc World error GetIntentVersionsOutput :=
  '(output, err) ←
    GetIntentVersions c (Some {| IntentVersionsName := Go.String id |});
  if ErrCodeEquals ErrCodeEqualsErr err ErrCodeNotFoundException
  then ret (INil, lexModelBuildingServiceStatusNotFound, None)
  else if notnil err then ret (INil, lexModelBuildingServiceStatusUnknown, err)
  else if noIntents output
  then ret (INil, lexModelBuildingServiceStatusNotFound, None)
  else ret (IPtr output, lexModelBuildingServiceStatusCreated, None).

Definition statusLexBotAlias (c : conn) (botAliasName botName : string)
  : StateRefreshFunc World error GetBotAliasOutput :=
  '(output, err) ←
    GetBotAlias c (Some {| AliasInputBotName := Go.String botName;
                           AliasInputName := Go.String botAliasName |});
  if ErrCodeEquals ErrCodeEqualsErr err ErrCodeNotFoundException
  then ret (INil, lexModelBuildingServiceStatusNotFound, None)
  else if notnil err then ret (INil, lexModelBuildingServiceStatusUnknown, err)
  else
    match output with
    | None => ret (INil, lexModelBuildingServiceStatusNotFound, None)
    | Some _ => ret (IPtr output, lexModelBuildingServiceStatusCreated, None)
    end.
End Probes.
End lex_waiter.

(** ** ECS: paginated listing of capacity providers *)

Module ecs.
Record CapacityProvider := {
  CapacityProviderArn : ptr string;
  Name : ptr string;
  Status : ptr string
}.
Record DescribeCapacityProvidersInput := {
  CapacityProviders : list (ptr string);
  Include : list (ptr string);
  MaxResults : ptr Z;
  NextToken : ptr string
}.
Record DescribeCapacityProvidersOutput := {
  OutputCapacityProviders : list CapacityProvider;
  OutputNextToken : ptr string
}.

(** [input.NextToken = t] *)
Definition setNextToken (input : DescribeCapacityProvidersInput)
    (t : ptr string) : DescribeCapacityProvidersInput :=
  {| CapacityProviders := CapacityProviders input;
     Include := Include input;
     MaxResults := MaxResults input;
     NextToken := t |}.
End ecs.

(** The ECS client and the contexts it takes; [Background] is
    [context.Background()]. *)
Class ECS (World error conn Context : Type) := {
  Background : Context;
  DescribeCapacityProvidersWithContext :
    conn -> Context -> ptr ecs.DescribeCapacityProvidersInput ->
    M World (ptr ecs.DescribeCapacityProvidersOutput * option error)
}.

Module lister.
Import ecs.

(** How a run of the [for] loop ends: it leaves the loop with the error
    the function returns, or the iterations it was given run out. *)
Inductive run (A : Type) : Type :=
| Finished (a : A)
| OutOfFuel.
Arguments Finished {A} a.
Arguments OutOfFuel {A}.

Section Pages.
Context {World error conn Context : Type}.
Context {api : ECS World error conn Context}.

(** The page callback: it may read and change the caller's state, which
    is part of the world. *)
Definition PageFn : Type :=
  ptr DescribeCapacityProvidersOutput -> bool -> M World bool.

(** The loop runs at most [fuel] iterations.  [input] is the struct the
    caller's pointer refers to; the function stores the next token in
    it, so its last value is returned with the error. *)
Fixpoint DescribeCapacityProvidersPagesWithContext (fuel : nat)
    (ctx : Context) (c : conn) (input : ptr DescribeCapacityProvidersInput)
    (fn : PageFn)
  : M World (run (option error) * ptr DescribeCapacityProvidersInput) :=
  match fuel with
  | O => ret (OutOfFuel, input)
  | S fuel' =>
      '(output, err) ← DescribeCapacityProvidersWithContext c ctx input;
      if notnil err then ret (Finished err, input)
      else
        o ← deref output;
        let lastPage := String.eqb (StringValue (OutputNextToken o)) "" in
        more ← fn output lastPage;
        if negb more || lastPage then ret (Finished None, input)
        else
          i ← deref input;
          DescribeCapacityProvidersPagesWithContext fuel' ctx c
            (Some (setNextToken i (OutputNextToken o))) fn
  end.

Definition DescribeCapacityProvidersPages (fuel : nat) (c : conn)
    (input : ptr DescribeCapacityProvidersInput) (fn : PageFn)
  : M World (run (option error) * ptr DescribeCapacityProvidersInput) :=
  DescribeCapacityProvidersPagesWithContext fuel Background c input fn.
End Pages.

(** *** Observing the callback

    To speak about the invocations of the callback, the world is paired
    with a log to which a wrapped callback appends each invocation: the
    page, the [lastPage] flag and what the callback answered. *)
Section Logging.
Context {World error conn Context : Type}.

Definition Call : Type := ptr DescribeCapacityProvidersOutput * bool * bool.

Definition lift {A} (m : M World A) : M (World * list Call) A :=
  fun s => let '(r, w') := m (fst s) in (r, (w', snd s)).

Definition logged (fn : @PageFn World) : @PageFn (World * list Call) :=
  fun page lastPage s =>
    match fn page lastPage (fst s) with
    | (Returned more, w') =>
        (Returned more, (w', snd s ++ [(page, lastPage, more)]))
    | (Panicked, w') => (Panicked, (w', snd s))
    end.

#[local] Instance lifted (api : ECS World error conn Context)
  : ECS (World * list Call) error conn Context :=
  {| Background := Background;
     DescribeCapacityProvidersWithContext c ctx input :=
       lift (DescribeCapacityProvidersWithContext c ctx input) |}.

(** A call after which the loop goes on: the callback asked for more
    and the page was not the last. *)
Definition goes_on (c : Call) : bool :=
  let '(_, lastPage, more) := c in more && negb lastPage.

(** The flag passed with a page is [true] exactly when the page has no
    next token. *)
Definition flag_ok (c : Call) : bool :=
  match c with
  | (Some o, lastPage, _) =>
      Bool.eqb lastPage (String.eqb (StringValue (OutputNextToken o)) "")
  | (None, _, _) => false
  end.

Context {api : ECS World error conn Context}.

(** The invocations of the callback made by a run of the loop. *)
Definition invocations (fuel : nat) (ctx : Context) (c : conn)
    (input : ptr DescribeCapacityProvidersInput) (fn : @PageFn World)
    (w : World) : list Call :=
  snd (snd (DescribeCapacityProvidersPagesWithContext (api := lifted api)
              fuel ctx c input (logged fn) (w, []))).

(** The same for the function without a context argument. *)
Definition invocationsOfPages (fuel : nat) (c : conn)
    (input : ptr DescribeCapacityProvidersInput) (fn : @PageFn World)
    (w : World) : list Call :=
  snd (snd (DescribeCapacityProvidersPages (api := lifted api)
              fuel c input (logged fn) (w, []))).

(** How the invocations relate to the way the run ends.  When the
    function returns nil, the loop was left at the last invocation,
    which either answered [false] or had the last page, and went on
    after every earlier one.  When the iterations run out, each of
    them made an invocation after which the loop went on.  In the
    other cases (an error of the client, a panic) the loop went on
    after every invocation made. *)
Definition stops_when_told {W} (fuel : nat)
    (r : outcome (run (option error) * ptr DescribeCapacityProvidersInput) * W)
    (calls : list Call) : Prop :=
  match fst r with
  | Returned (Finished None, _) =>
      exists init c, calls = init ++ [c]
        /\ forallb goes_on init = true /\ goes_on c = false
  | Returned (OutOfFuel, _) =>
      forallb goes_on calls = true /\ length calls = fuel
  | _ => forallb goes_on calls = true
  end.
End Logging.
End lister.

(** ** The events of the paginated listing *)

Module lister_events.
Import ecs lister.

Section Events.
Context {World error conn Context : Type}.

(** What a run of the loop does that can be seen from outside: a request
    to the client with what the client answered, and an invocation of the
    callback with what the callback answered. *)
Inductive Event : Type :=
| Request (input : ptr DescribeCapacityProvidersInput)
    (answer : outcome (ptr DescribeCapacityProvidersOutput * option error))
| Callback (page : ptr DescribeCapacityProvidersOutput) (lastPage : bool)
    (answer : outcome bool).

(** The world is paired with the list of the events so far: the client and
    the callback are wrapped so that each of their calls appends its
    event. *)
Definition watched (fn : @PageFn World) : @PageFn (World * list Event) :=
  fun page lastPage s =>
    let '(r, w') := fn page lastPage (fst s) in
    (r, (w', snd s ++ [Callback page lastPage r])).

#[local] Instance watching (api : ECS World error conn Context)
  : ECS (World * list Event) error conn Context :=
  {| Background := Background;
     DescribeCapacityProvidersWithContext c ctx input :=
       fun s =>
         let '(r, w') := DescribeCapacityProvidersWithContext c ctx input (fst s) in
         (r, (w', snd s ++ [Request input r])) |}.

Context {api : ECS World error conn Context}.

(** The events of a run of the loop, in order. *)
Definition events (fuel : nat) (ctx : Context) (c : conn)
    (input : ptr DescribeCapacityProvidersInput) (fn : @PageFn World)
    (w : World) : list Event :=
  snd (snd (DescribeCapacityProvidersPagesWithContext (api := watching api)
              fuel ctx c input (watched fn) (w, []))).

(** The same for the function without a context argument. *)
Definition eventsOfPages (fuel : nat) (c : conn)
    (input : ptr DescribeCapacityProvidersInput) (fn : @PageFn World)
    (w : World) : list Event :=
  snd (snd (DescribeCapacityProvidersPages (api := watching api)
              fuel c input (watched fn) (w, []))).

(** [listing fuel input events r]: the events are those of a listing that
    starts from [input], and [r] is how it ends.  Each iteration requests
    the client with the current input.  A panic of the client, an error or
    a nil page end the run (with a panic, the error, a panic).  A page is
    handed to the callback, the very page the client answered, with the
    flag that says whether it has no next token.  A panic of the callback
    ends the run; when the callback answers [false] or the page is the
    last the function returns nil with the input as it is; otherwise the
    next iteration starts from the input with the token of the page (and
    panics on a nil input). *)
Fixpoint listing (fuel : nat) (input : ptr DescribeCapacityProvidersInput)
    (evs : list Event)
    (r : outcome (run (option error) * ptr DescribeCapacityProvidersInput))
  : Prop :=
  match fuel with
  | O => evs = [] /\ r = Returned (OutOfFuel, input)
  | S fuel' =>
      exists answer rest,
        evs = Request input answer :: rest
        /\ match answer with
           | Returned (Some o, None) =>
               let lastPage := String.eqb (StringValue (OutputNextToken o)) "" in
               exists said rest',
                 rest = Callback (Some o) lastPage said :: rest'
                 /\ match said with
                    | Returned more =>
                        if negb more || lastPage
                        then rest' = [] /\ r = Returned (Finished None, input)
                        else
                          match input with
                          | Some i =>
                              listing fuel'
                                (Some (setNextToken i (OutputNextToken o)))
                                rest' r
                          | None => rest' = [] /\ r = Panicked
                          end
                    | Panicked => rest' = [] /\ r = Panicked
                    end
           | Returned (_, Some e) =>
               rest = [] /\ r = Returned (Finished (Some e), input)
           | Returned (None, None) => rest = [] /\ r = Panicked
           | Panicked => rest = [] /\ r = Panicked
           end
  end.
End Events.
End lister_events.

(** ** SES configuration sets *)

Module ses.
Definition ErrCodeConfigurationSetDoesNotExistException : string :=
  "ConfigurationSetDoesNotExist".

Record DeleteConfigurationSetInput := {
  ConfigurationSetName : ptr string
}.
Record DeleteConfigurationSetOutput := { }.

Record DeliveryOptions := {
  TlsPolicy : ptr string
}.
End ses.

(** The SES client, the logger and the two helpers the resource uses:
    [isAWSErr(err, code, message)] of the provider package on a non-nil
    error, and [fmt.Errorf] with one [%s] and one [%w] verb. *)
Class SES (World error conn : Type) := {
  DeleteConfigurationSet : conn -> ptr ses.DeleteConfigurationSetInput ->
    M World (ptr ses.DeleteConfigurationSetOutput * option error);
  logPrintf : string -> string -> M World unit;
  isAWSErr : error -> string -> string -> bool;
  Errorf : string -> string -> error -> error
}.

Module aws.
(** [schema.ResourceData], as far as the functions here read it. *)
Record ResourceData := {
  Id : string
}.

(** [AWSClient], with the one connection used here. *)
Record AWSClient (conn : Type) := {
  sesconn : conn
}.
Arguments sesconn {conn} _.

(** The values of [interface{}] that flow through a resource's
    configuration. *)
#[warnings="-register-all"] Inductive value : Type :=
| VNil
| VString (s : string)
| VBool (b : bool)
| VInt (z : Z)
| VMap (m : gmap string value)
| VList (l : list value).

(** A Go slice is nil or holds elements; [len] of a nil slice is 0. *)
Definition slice (A : Type) : Type := option (list A).

Definition len {A} (l : slice A) : nat :=
  match l with
  | Some xs => length xs
  | None => 0
  end.

(** [l[i]]: an index out of range panics, which [None] stands for. *)
Definition index {A} (l : slice A) (i : nat) : option A :=
  match l with
  | Some xs => xs !! i
  | None => None
  end.

(** [m[k]] on a [map[string]interface{}]: a missing key reads as the nil
    interface. *)
Definition mapIndex (m : gmap string value) (k : string) : value :=
  match m !! k with
  | Some v => v
  | None => VNil
  end.

Section Resource.
Context {World error conn : Type}.
Context {api : SES World error conn}.

(** The type assertion of [meta] to a client pointer: it panics unless
    [meta] holds such a pointer, and reading a field of a nil client
    panics. *)
Definition asAWSClient (meta : iface (AWSClient conn)) : M World (AWSClient conn) :=
  match meta with
  | IPtr p => deref p
  | _ => panic
  end.

Definition resourceAwsSesConfigurationSetDelete (d : ResourceData)
    (meta : iface (AWSClient conn)) : M World (option error) :=
  client ← asAWSClient meta;
  let c := sesconn client in
  _ ← logPrintf "[DEBUG] SES Delete Configuration Rule Set: %s" (Id d);
  let input := Some {| ses.ConfigurationSetName := Go.String (Id d) |} in
  '(_, err) ← DeleteConfigurationSet c input;
  match err with
  | Some e =>
      if negb (isAWSErr e ses.ErrCodeConfigurationSetDoesNotExistException "")
      then ret (Some (Errorf "error deleting SES Configuration Set (%s): %w" (Id d) e))
      else ret None
  | None => ret None
  end.
End Resource.

Definition expandSesConfigurationSetDeliveryOptions (l : slice value)
  : ptr ses.DeliveryOptions :=
  if Nat.eqb (len l) 0 then None
  else
    match index l 0 with
    | None => None
    | Some VNil => None
    | Some (VMap tfMap) =>
        match mapIndex tfMap "tls_policy" with
        | VString v =>
            if negb (String.eqb v "")
            then Some {| ses.TlsPolicy := Go.String v |}
            else Some {| ses.TlsPolicy := None |}
        | _ => Some {| ses.TlsPolicy := None |}
        end
    | Some _ => None
    end.

Definition flattenSesConfigurationSetDeliveryOptions
    (options : ptr ses.DeliveryOptions) : slice value :=
  match options with
  | None => None
  | Some o =>
      let m : gmap string value :=
        {[ "tls_policy" := VString (StringValue (ses.TlsPolicy o)) ]} in
      Some [VMap m]
  end.
End aws.

(** ** The convergence waiter *)

Module waiter.

(** Modelled from the spec: the Status of the data model, whose code is not
    part of the sources: an opaque label, compared for equality only. *)
Definition Status : Type := string.

(** Modelled from the spec: the Transition Table of the data model, whose
    code is not part of the sources: the sets of status labels classified
    as pending, target and failure; a status in none of them is unknown. *)
Record TransitionTable := {
  pending : gset Status;
  target : gset Status;
  failure : gset Status
}.

(** Modelled from the spec: the four outcomes of classifying a status,
    whose code is not part of the sources. *)
Inductive Classification : Type :=
| CFailure
| CTarget
| CPending
| CUnknown.

(** Modelled from the spec: the classification of a status by the
    Transition Table, whose code is not part of the sources, with the
    tie-break of the edge policy: failure before target before pending. *)
Definition classify (t : TransitionTable) (st : Status) : Classification :=
  if bool_decide (st ∈ failure t) then CFailure
  else if bool_decide (st ∈ target t) then CTarget
  else if bool_decide (st ∈ pending t) then CPending
  else CUnknown.

(** Modelled from the spec: the Wait Configuration, whose code is not part
    of the sources.  Times are in milliseconds; the cancellation signal
    says whether the caller has cancelled by a given elapsed time.  The
    optional growth of the interval is left out: the interval is
    constant. *)
Record WaitConfig := {
  initialDelay : nat;
  pollInterval : nat;
  timeout : nat;
  unknownStatusTolerance : nat;
  cancellationSignal : nat -> bool
}.

(** Modelled from the spec: the time from one tick to the next, whose code
    is not part of the sources: the poll interval, and at least one
    millisecond, as a poll takes time. *)
Definition tick (cfg : WaitConfig) : nat := Nat.max 1 (pollInterval cfg).

Section Wait.
Context {World error T : Type}.

(** Modelled from the spec: the errors of the call contract, whose code
    is not part of the sources. *)
Inductive WaitError : Type :=
| TargetNotReached (lastStatus : Status) (lastSnapshot : iface T)
| Timeout (lastStatus : Status) (lastSnapshot : iface T) (elapsed : nat)
| Cancelled (lastStatus : Status)
| ProbeError (cause : error)
| UnexpectedStatus (status : Status) (occurrences : nat).

(** Modelled from the spec: what [Wait] returns, whose code is not part of
    the sources: the snapshot and no error, or an error. *)
Inductive WaitResult : Type :=
| Success (snapshot : iface T)
| Failed (err : WaitError).

(** Modelled from the spec: the test for a nil (absent) snapshot, whose
    code is not part of the sources. *)
Definition isNil (snapshot : iface T) : bool :=
  match snapshot with
  | INil => true
  | _ => false
  end.

Variable cfg : WaitConfig.
Variable probe : StateRefreshFunc World error T.
Variable table : TransitionTable.

(** Modelled from the spec: the state machine of the Convergence Waiter
    (the algorithm of section 4.2), whose code is not part of the
    sources.  Before a tick the cancellation signal and the timeout are
    checked; then the probe is invoked and its result classified: an
    error stops the wait, a failure status stops it with
    [TargetNotReached], a target status ends it with the snapshot, a
    pending status or a nil snapshot continues, and an unknown status
    is tolerated [unknownStatusTolerance] consecutive times.  [last] is
    the last observed status and snapshot, [unknowns] the count of
    consecutive unknown observations. *)
Fixpoint poll (fuel elapsed unknowns : nat) (last : Status * iface T)
  : M World WaitResult :=
  match fuel with
  | O => ret (Failed (Timeout (fst last) (snd last) elapsed))
  | S fuel' =>
      if cancellationSignal cfg elapsed
      then ret (Failed (Cancelled (fst last)))
      else if Nat.ltb (timeout cfg) elapsed
      then ret (Failed (Timeout (fst last) (snd last) elapsed))
      else
        '(snapshot, status, err) ← probe;
        match err with
        | Some e => ret (Failed (ProbeError e))
        | None =>
            match classify table status with
            | CFailure => ret (Failed (TargetNotReached status snapshot))
            | CTarget => ret (Success snapshot)
            | CPending =>
                poll fuel' (elapsed + tick cfg) 0 (status, snapshot)
            | CUnknown =>
                if isNil snapshot
                then poll fuel' (elapsed + tick cfg) 0 (status, snapshot)
                else if Nat.ltb (unknownStatusTolerance cfg) (S unknowns)
                then ret (Failed (UnexpectedStatus status (S unknowns)))
                else poll fuel' (elapsed + tick cfg) (S unknowns)
                       (status, snapshot)
            end
        end
  end.

(** Modelled from the spec: [Wait(config, probe, transitionTable)], the
    single entry point, whose code is not part of the sources.  The
    first tick is at the initial delay; as a tick takes at least a
    millisecond, [timeout + 1] ticks always reach the timeout. *)
Definition Wait : M World WaitResult :=
  poll (S (timeout cfg)) (initialDelay cfg) 0 ("", INil).

(** [continuing_prefix k unknowns w] runs the probe [k] times from [w],
    with [unknowns] consecutive unknown observations counted so far.  It
    is the world and the count after them when each observation keeps the
    wait polling: it has no error and its status is pending, or unknown
    with a nil snapshot, or unknown within the tolerance. *)
Fixpoint continuing_prefix (k unknowns : nat) (w : World)
  : option (World * nat) :=
  match k with
  | O => Some (w, unknowns)
  | S k' =>
      match probe w with
      | (Returned (snapshot, status, None), w') =>
          match classify table status with
          | CPending => continuing_prefix k' 0 w'
          | CUnknown =>
              if isNil snapshot then continuing_prefix k' 0 w'
              else if Nat.ltb (unknownStatusTolerance cfg) (S unknowns)
              then None
              else continuing_prefix k' (S unknowns) w'
          | _ => None
          end
      | _ => None
      end
  end.

(** [observation k w] is what the probe returns on its invocation
    number [k] (from 0) in a sequence of invocations that starts in
    [w], if the earlier ones returned. *)
Fixpoint observation (k : nat) (w : World)
  : option (iface T * Status * option error) :=
  match probe w with
  | (Returned r, w') =>
      match k with
      | O => Some r
      | S k' => observation k' w'
      end
  | (Panicked, _) => None
  end.
End Wait.
Arguments WaitError : clear implicits.
Arguments WaitResult : clear implicits.
End waiter.

(** ** A scripted remote system

    A small remote system to run the definitions on: the world counts the
    calls made so far, an error is its code, and every operation answers
    what the script says. *)

Module Script.
Definition World : Type := nat.
Definition error : Type := string.
Definition conn : Type := unit.

Definition answer {A} (a : A) : M World A := fun w => (Returned a, S w).

Definition notFoundError : error := "couldn't find resource".
Definition accessDenied : error := "AccessDeniedException".

Definition NotFoundErr (e : error) : bool := String.eqb e notFoundError.
Definition ErrCodeEqualsErr (e : error) (code : string) : bool :=
  String.eqb e code.

Definition connection : directconnect.Connection :=
  {| directconnect.ConnectionId := Some "dxcon-fg5678gh";
     directconnect.ConnectionName := Some "example";
     directconnect.ConnectionState := Some "available" |}.
Definition gateway : directconnect.Gateway :=
  {| directconnect.DirectConnectGatewayId := Some "gw-1";
     directconnect.DirectConnectGatewayName := Some "example";
     directconnect.DirectConnectGatewayState := Some "pending" |}.
Definition association : directconnect.GatewayAssociation :=
  {| directconnect.AssociationId := Some "assoc-1";
     directconnect.AssociationState := Some "associating" |}.
Definition lag : directconnect.Lag :=
  {| directconnect.LagId := Some "dxlag-1";
     directconnect.LagName := Some "example";
     directconnect.LagState := None |}.

Definition dc_answers (c : ptr directconnect.Connection)
    (g : ptr directconnect.Gateway) (a : ptr directconnect.GatewayAssociation)
    (l : ptr directconnect.Lag) (err : option error)
  : DirectConnectFinder World error conn :=
  {| ConnectionByID _ _ := answer (c, err);
     GatewayByID _ _ := answer (g, err);
     GatewayAssociationByID _ _ := answer (a, err);
     HostedConnectionByID _ _ := answer (c, err);
     LagByID _ _ := answer (l, err) |}.

Definition adminAccount : securityhub_sdk.AdminAccount :=
  {| securityhub_sdk.AccountId := Some "123456789012";
     securityhub_sdk.Status := Some "ENABLED" |}.

Definition sh_answers (a : ptr securityhub_sdk.AdminAccount)
    (aerr : option error) (s : ptr securityhub_sdk.StandardsSubscription)
    (serr : option error)
  : SecurityHubFinder World error conn :=
  {| FindAdminAccount _ _ := answer (a, aerr);
     FindStandardsSubscriptionByARN _ _ := answer (s, serr) |}.

Definition lex_answers (b : ptr lexmodelbuildingservice.GetBotOutput)
    (berr : option error)
    (s : ptr lexmodelbuildingservice.GetSlotTypeVersionsOutput)
    (i : ptr lexmodelbuildingservice.GetIntentVersionsOutput)
    (a : ptr lexmodelbuildingservice.GetBotAliasOutput) (err : option error)
  : LexModelBuilding World error conn :=
  {| FindBotVersionByName _ _ _ := answer (b, berr);
     GetSlotTypeVersions _ _ := answer (s, err);
     GetIntentVersions _ _ := answer (i, err);
     GetBotAlias _ _ := answer (a, err) |}.

(** Every Direct Connect, Security Hub and Lex operation reports that the
    entity does not exist: the finders with a not-found error (the admin
    account finder with no account and no error), the Lex client with
    the not-found error code. *)
Definition dc_missing := dc_answers None None None None (Some notFoundError).
Definition sh_missing := sh_answers None None None (Some notFoundError).
Definition lex_missing :=
  lex_answers None (Some notFoundError) None None None
    (Some lexmodelbuildingservice.ErrCodeNotFoundException).

(** Every operation fails with an access error. *)
Definition dc_denied := dc_answers None None None None (Some accessDenied).
Definition sh_denied :=
  sh_answers None (Some accessDenied) None (Some accessDenied).
Definition lex_denied :=
  lex_answers None (Some accessDenied) None None None (Some accessDenied).

(** Every Direct Connect finder finds its entity. *)
Definition dc_present :=
  dc_answers (Some connection) (Some gateway) (Some association) (Some lag) None.

(** Capacity providers come in two pages: the first is served to a
    request without token and names the token of the second. *)
Definition provider (name : string) : ecs.CapacityProvider :=
  {| ecs.CapacityProviderArn := None;
     ecs.Name := Some name;
     ecs.Status := Some "ACTIVE" |}.
Definition page1 : ecs.DescribeCapacityProvidersOutput :=
  {| ecs.OutputCapacityProviders := [provider "FARGATE"];
     ecs.OutputNextToken := Some "page-2" |}.
Definition page2 : ecs.DescribeCapacityProvidersOutput :=
  {| ecs.OutputCapacityProviders := [provider "FARGATE_SPOT"];
     ecs.OutputNextToken := None |}.

Definition ecs_two_pages : ECS World error conn unit :=
  {| Background := tt;
     DescribeCapacityProvidersWithContext _ _ input :=
       match input with
       | Some {| ecs.NextToken := Some _ |} => answer (Some page2, None)
       | _ => answer (Some page1, None)
       end |}.

Definition noInput : ecs.DescribeCapacityProvidersInput :=
  {| ecs.CapacityProviders := [];
     ecs.Include := [];
     ecs.MaxResults := None;
     ecs.NextToken := None |}.

(** An SES client whose configuration set is already gone, and one that
    refuses the call.  An error is its code, so [isAWSErr] with an empty
    message compares codes. *)
Definition ses_answers (err : option error) : SES World error conn :=
  {| DeleteConfigurationSet _ _ := answer (None, err);
     logPrintf _ _ := ret tt;
     isAWSErr e code _ := String.eqb e code;
     Errorf _ a e := String.append a (String.append ": " e) |}.
Definition ses_gone :=
  ses_answers (Some ses.ErrCodeConfigurationSetDoesNotExistException).
Definition ses_denied := ses_answers (Some accessDenied).

Definition configurationSet : aws.ResourceData := {| aws.Id := "example" |}.
Definition client : aws.AWSClient conn := {| aws.sesconn := tt |}.

(** A probe that answers from a script: invocation number [w] gets
    entry [w], and the last entry is repeated when the script is over. *)
Definition scripted {T} (first : iface T * string * option error)
    (rest : list (iface T * string * option error))
  : StateRefreshFunc World error T :=
  fun w => (Returned (nth w (first :: rest) (List.last rest first)), S w).

Definition snapshot (state : string) : iface directconnect.Connection :=
  IPtr (Some {| directconnect.ConnectionId := Some "dxcon-fg5678gh";
                directconnect.ConnectionName := Some "example";
                directconnect.ConnectionState := Some state |}).
Definition observed (state : string)
  : iface directconnect.Connection * string * option error :=
  (snapshot state, state, None).

Definition lifecycle : waiter.TransitionTable :=
  {| waiter.pending := {[ "PENDING" ]};
     waiter.target := {[ "AVAILABLE" ]};
     waiter.failure := {[ "FAILED" ]} |}.

(** A misconfigured table: "AVAILABLE" is a target and a failure. *)
Definition misconfigured : waiter.TransitionTable :=
  {| waiter.pending := {[ "PENDING" ]};
     waiter.target := {[ "AVAILABLE" ]};
     waiter.failure := {[ "FAILED"; "AVAILABLE" ]} |}.

Definition every100ms : waiter.WaitConfig :=
  {| waiter.initialDelay := 0;
     waiter.pollInterval := 100;
     waiter.timeout := 300;
     waiter.unknownStatusTolerance := 0;
     waiter.cancellationSignal := fun _ => false |}.

(** A callback that asks for every page, and one that stops at once. *)
Definition every_page : @lister.PageFn World := fun _ _ => ret true.
Definition first_page_only : @lister.PageFn World := fun _ _ => ret false.
End Script.

(** ** Contracts of a probe towards its fetch *)

(** A probe only reports errors of its fetch: an error it returns is the
    error the fetch returned, and it comes with a nil snapshot. *)
Definition errors_come_from_fetch {World error A T}
    (F : M World (ptr A * option error)) (P : StateRefreshFunc World error T)
  : Prop :=
  forall w snapshot status e w',
    P w = (Returned (snapshot, status, Some e), w') ->
    snapshot = INil /\ exists out, F w = (Returned (out, Some e), w').

(** A probe signals absence by a value: whenever it returns no error, its
    snapshot is not the nil interface. *)
Definition never_nil_without_error {World error T}
    (P : StateRefreshFunc World error T) : Prop :=
  forall w snapshot status w',
    P w = (Returned (snapshot, status, None), w') -> snapshot <> INil.

(** The three outcomes of a probe of the Lex client: not found, a fault,
    or an output that satisfies [holds]. *)
Definition lex_client_outcome {error T} (holds : T -> Prop)
    (r : iface T * string * option error) : Prop :=
  let '(snapshot, status, err) := r in
  (status = "NOTFOUND" /\ snapshot = INil /\ err = None)
  \/ (status = "UNKNOWN" /\ snapshot = INil /\ err <> None)
  \/ (status = "CREATED" /\ err = None
      /\ exists o, snapshot = IPtr (Some o) /\ holds o).

(** ** Observing the requests of the paginated listing *)

Module lister_requests.
Import ecs lister.

Section Recording.
Context {World error conn Context : Type}.

(** A request of the loop and what the client answered. *)
Definition Exchange : Type :=
  ptr DescribeCapacityProvidersInput
  * ptr DescribeCapacityProvidersOutput * option error.

(** The world is paired with a record of the exchanges; the callback does
    not touch the record, and the client appends to it the request of each
    call that returns. *)
Definition aside (fn : @PageFn World) : @PageFn (World * list Exchange) :=
  fun page lastPage s =>
    let '(r, w') := fn page lastPage (fst s) in (r, (w', snd s)).

#[local] Instance recording (api : ECS World error conn Context)
  : ECS (World * list Exchange) error conn Context :=
  {| Background := Background;
     DescribeCapacityProvidersWithContext c ctx input :=
       fun s =>
         match DescribeCapacityProvidersWithContext c ctx input (fst s) with
         | (Returned (output, err), w') =>
             (Returned (output, err), (w', snd s ++ [(input, output, err)]))
         | (Panicked, w') => (Panicked, (w', snd s))
         end |}.

Context {api : ECS World error conn Context}.

(** The exchanges of a run of the loop, in order. *)
Definition exchanges (fuel : nat) (ctx : Context) (c : conn)
    (input : ptr DescribeCapacityProvidersInput) (fn : @PageFn World)
    (w : World) : list Exchange :=
  snd (snd (DescribeCapacityProvidersPagesWithContext (api := recording api)
              fuel ctx c input (aside fn) (w, []))).

(** The exchanges are chained from [input]: the first request is [input],
    and a request that is followed by another was answered, without error,
    by a page with a next token, which the following request carries in an
    input that is otherwise the same. *)
Fixpoint chained (input : ptr DescribeCapacityProvidersInput)
    (xs : list Exchange) : Prop :=
  match xs with
  | [] => True
  | (request, output, err) :: rest =>
      request = input
      /\ match rest with
         | [] => True
         | _ :: _ =>
             exists i o,
               input = Some i /\ output = Some o /\ err = None
               /\ StringValue (OutputNextToken o) <> ""
               /\ chained (Some (setNextToken i (OutputNextToken o))) rest
         end
  end.

(** The caller's input after the run differs from the one before it in the
    next token at most; a nil input stays nil. *)
Definition same_but_token (input input' : ptr DescribeCapacityProvidersInput)
  : Prop :=
  match input, input' with
  | Some i, Some i' =>
      CapacityProviders i' = CapacityProviders i
      /\ Include i' = Include i
      /\ MaxResults i' = MaxResults i
  | None, None => True
  | _, _ => False
  end.
End Recording.
End lister_requests.

(** ** SES configuration sets: create, read and update *)

Module ses_api.
Definition ConfigurationSetAttributeDeliveryOptions : string := "deliveryOptions".
Definition ConfigurationSetAttributeReputationOptions : string :=
  "reputationOptions".

Record ConfigurationSet := {
  Name : ptr string
}.
Record CreateConfigurationSetInput := {
  CreateConfigurationSet_ConfigurationSet : ptr ConfigurationSet
}.
Record CreateConfigurationSetOutput := { }.
Record PutConfigurationSetDeliveryOptionsInput := {
  Put_ConfigurationSetName : ptr string;
  Put_DeliveryOptions : ptr ses.DeliveryOptions
}.
Record PutConfigurationSetDeliveryOptionsOutput := { }.
Record UpdateConfigurationSetReputationMetricsEnabledInput := {
  Reputation_ConfigurationSetName : ptr string;
  Reputation_Enabled : ptr bool
}.
Record UpdateConfigurationSetReputationMetricsEnabledOutput := { }.
Record UpdateConfigurationSetSendingEnabledInput := {
  Sending_ConfigurationSetName : ptr string;
  Sending_Enabled : ptr bool
}.
Record UpdateConfigurationSetSendingEnabledOutput := { }.
Record DescribeConfigurationSetInput := {
  Describe_ConfigurationSetName : ptr string;
  ConfigurationSetAttributeNames : list (ptr string)
}.
Record ReputationOptions (Time : Type) := {
  LastFreshStart : ptr Time;
  ReputationMetricsEnabled : ptr bool;
  SendingEnabled : ptr bool
}.
Arguments LastFreshStart {Time} _.
Arguments ReputationMetricsEnabled {Time} _.
Arguments SendingEnabled {Time} _.
Record DescribeConfigurationSetOutput (Time : Type) := {
  Output_ConfigurationSet : ptr ConfigurationSet;
  Output_DeliveryOptions : ptr ses.DeliveryOptions;
  Output_ReputationOptions : ptr (ReputationOptions Time)
}.
Arguments Output_ConfigurationSet {Time} _.
Arguments Output_DeliveryOptions {Time} _.
Arguments Output_ReputationOptions {Time} _.
End ses_api.

Module arn.
(** [arn.ARN] of the AWS SDK. *)
Record ARN := {
  Partition : string;
  Service : string;
  Region : string;
  AccountID : string;
  Resource : string
}.
End arn.

(** What the resource functions pass to [d.Set]. *)
Inductive SetValue : Type :=
| SetSlice (s : aws.slice aws.value)
| SetStringPtr (p : ptr string)
| SetBoolPtr (p : ptr bool)
| SetString (s : string).

(** [schema.ResourceData] of the plugin SDK, for the functions that write
    to it: [d] is a handle, what it holds is part of the world, and the
    methods are operations on the world. *)
Class ResourceDataOps (World error rd : Type) := {
  dataId : rd -> M World string;
  dataSetId : rd -> string -> M World unit;
  dataGet : rd -> string -> M World aws.value;
  dataGetOk : rd -> string -> M World (aws.value * bool);
  dataHasChange : rd -> string -> M World bool;
  dataSet : rd -> string -> SetValue -> M World (option error)
}.

(** The other operations of the SES client, and what the resource functions
    use besides: [fmt.Errorf] with a single [%w] verb, [fmt.Sprintf] with a
    single [%s] verb, [String] of an ARN, [aws.TimeValue(t).Format(layout)],
    and the partition, region and account of the client. *)
Class SESConfigurationSets (World error conn Time : Type) := {
  CreateConfigurationSet : conn -> ptr ses_api.CreateConfigurationSetInput ->
    M World (ptr ses_api.CreateConfigurationSetOutput * option error);
  PutConfigurationSetDeliveryOptions :
    conn -> ptr ses_api.PutConfigurationSetDeliveryOptionsInput ->
    M World (ptr ses_api.PutConfigurationSetDeliveryOptionsOutput * option error);
  UpdateConfigurationSetReputationMetricsEnabled :
    conn -> ptr ses_api.UpdateConfigurationSetReputationMetricsEnabledInput ->
    M World (ptr ses_api.UpdateConfigurationSetReputationMetricsEnabledOutput
             * option error);
  UpdateConfigurationSetSendingEnabled :
    conn -> ptr ses_api.UpdateConfigurationSetSendingEnabledInput ->
    M World (ptr ses_api.UpdateConfigurationSetSendingEnabledOutput * option error);
  DescribeConfigurationSet : conn -> ptr ses_api.DescribeConfigurationSetInput ->
    M World (ptr (ses_api.DescribeConfigurationSetOutput Time) * option error);
  Errorfw : string -> error -> error;
  Sprintf : string -> string -> string;
  arnString : arn.ARN -> string;
  formatTime : ptr Time -> string -> string;
  partition : aws.AWSClient conn -> string;
  region : aws.AWSClient conn -> string;
  accountid : aws.AWSClient conn -> string
}.

Module aws_ses.
Import aws ses_api.

(** [time.RFC3339] *)
Definition RFC3339 : string := "2006-01-02T15:04:05Z07:00".

Section Resource.
Context {World error conn rd Time : Type}.
Context {api : SES World error conn}.
Context {sets : SESConfigurationSets World error conn Time}.
Context {data : ResourceDataOps World error rd}.

(** The type assertions on what [d.Get] returns; a value of another type
    panics. *)
Definition asString (v : value) : M World string :=
  match v with
  | VString s => ret s
  | _ => panic
  end.

Definition asBool (v : value) : M World bool :=
  match v with
  | VBool b => ret b
  | _ => panic
  end.

Definition asList (v : value) : M World (list value) :=
  match v with
  | VList l => ret l
  | _ => panic
  end.

(** [x != nil] for an interface value *)
Definition notNilValue (v : value) : bool :=
  match v with
  | VNil => false
  | _ => true
  end.

Definition resourceAwsSesConfigurationSetRead (d : rd)
    (meta : iface (AWSClient conn)) : M World (option error) :=
  client ← asAWSClient meta;
  let c := sesconn client in
  id ← dataId d;
  let configSetInput :=
    Some {| Describe_ConfigurationSetName := Go.String id;
            ConfigurationSetAttributeNames :=
              [Go.String ConfigurationSetAttributeDeliveryOptions;
               Go.String ConfigurationSetAttributeReputationOptions] |} in
  '(response, err) ← DescribeConfigurationSet c configSetInput;
  match err with
  | Some e =>
      if isAWSErr e ses.ErrCodeConfigurationSetDoesNotExistException ""
      then
        id ← dataId d;
        _ ← logPrintf
              "[WARN] SES Configuration Set (%s) not found, removing from state" id;
        _ ← dataSetId d "";
        ret None
      else ret (Some e)
  | None =>
      r ← deref response;
      serr ← dataSet d "delivery_options"
               (SetSlice (flattenSesConfigurationSetDeliveryOptions
                            (Output_DeliveryOptions r)));
      match serr with
      | Some e => ret (Some (Errorfw "error setting delivery_options: %w" e))
      | None =>
          cs ← deref (Output_ConfigurationSet r);
          _ ← dataSet d "name" (SetStringPtr (Name cs));
          _ ← match Output_ReputationOptions r with
              | Some repOpts =>
                  _ ← dataSet d "reputation_metrics_enabled"
                        (SetBoolPtr (ReputationMetricsEnabled repOpts));
                  _ ← dataSet d "sending_enabled"
                        (SetBoolPtr (SendingEnabled repOpts));
                  _ ← dataSet d "last_fresh_start"
                        (SetString (formatTime (LastFreshStart repOpts) RFC3339));
                  ret tt
              | None => ret tt
              end;
          c1 ← asAWSClient meta;
          c2 ← asAWSClient meta;
          c3 ← asAWSClient meta;
          id ← dataId d;
          let arn :=
            arnString {| arn.Partition := partition c1;
                         arn.Service := "ses";
                         arn.Region := region c2;
                         arn.AccountID := accountid c3;
                         arn.Resource := Sprintf "configuration-set/%s" id |} in
          _ ← dataSet d "arn" (SetString arn);
          ret None
      end
  end.

(** The test of the delivery options in the create function:
    [ok && len(v.([]interface{})) > 0 && v.([]interface{})[0] != nil]. *)
Definition hasDeliveryOptions (v : value) (ok : bool) : M World bool :=
  if ok then
    l ← asList v;
    if Nat.ltb 0 (length l) then
      again ← asList v;
      match again !! 0 with
      | Some x => ret (notNilValue x)
      | None => panic
      end
    else ret false
  else ret false.

Definition resourceAwsSesConfigurationSetCreate (d : rd)
    (meta : iface (AWSClient conn)) : M World (option error) :=
  client ← asAWSClient meta;
  let c := sesconn client in
  v ← dataGet d "name";
  configurationSetName ← asString v;
  let createOpts :=
    Some {| CreateConfigurationSet_ConfigurationSet :=
              Some {| Name := Go.String configurationSetName |} |} in
  '(_, err) ← CreateConfigurationSet c createOpts;
  match err with
  | Some e =>
      ret (Some (Errorf "error creating SES configuration set (%s): %w"
                   configurationSetName e))
  | None =>
      _ ← dataSetId d configurationSetName;
      '(v, ok) ← dataGetOk d "delivery_options";
      wanted ← hasDeliveryOptions v ok;
      err ←
        (if (wanted : bool) then
           l ← asList v;
           let input :=
             Some {| Put_ConfigurationSetName := Go.String configurationSetName;
                     Put_DeliveryOptions :=
                       expandSesConfigurationSetDeliveryOptions (Some l) |} in
           '(_, err) ← PutConfigurationSetDeliveryOptions c input;
           ret err
         else ret None);
      match err with
      | Some e =>
          ret (Some (Errorf
                       "error adding SES configuration set (%s) delivery options: %w"
                       configurationSetName e))
      | None =>
          v ← dataGet d "reputation_metrics_enabled";
          enabled ← asBool v;
          err ←
            (if (enabled : bool) then
               flag ← asBool v;
               let input :=
                 Some {| Reputation_ConfigurationSetName :=
                           Go.String configurationSetName;
                         Reputation_Enabled := Some flag |} in
               '(_, err) ← UpdateConfigurationSetReputationMetricsEnabled c input;
               ret err
             else ret None);
          match err with
          | Some e =>
              ret (Some (Errorf
                           "error adding SES configuration set (%s) reputation metrics enabled: %w"
                           configurationSetName e))
          | None =>
              v ← dataGet d "sending_enabled";
              enabled ← asBool v;
              err ←
                (if negb enabled then
                   flag ← asBool v;
                   let input :=
                     Some {| Sending_ConfigurationSetName :=
                               Go.String configurationSetName;
                             Sending_Enabled := Some flag |} in
                   '(_, err) ← UpdateConfigurationSetSendingEnabled c input;
                   ret err
                 else ret None);
              match err with
              | Some e =>
                  ret (Some (Errorf
                               "error adding SES configuration set (%s) sending enabled: %w"
                               configurationSetName e))
              | None => resourceAwsSesConfigurationSetRead d meta
              end
          end
      end
  end.

Definition resourceAwsSesConfigurationSetUpdate (d : rd)
    (meta : iface (AWSClient conn)) : M World (option error) :=
  client ← asAWSClient meta;
  let c := sesconn client in
  changed ← dataHasChange d "delivery_options";
  err ←
    (if (changed : bool) then
       id ← dataId d;
       v ← dataGet d "delivery_options";
       l ← asList v;
       let input :=
         Some {| Put_ConfigurationSetName := Go.String id;
                 Put_DeliveryOptions :=
                   expandSesConfigurationSetDeliveryOptions (Some l) |} in
       '(_, err) ← PutConfigurationSetDeliveryOptions c input;
       match err with
       | Some e =>
           id ← dataId d;
           ret (Some (Errorf
                        "error updating SES configuration set (%s) delivery options: %w"
                        id e))
       | None => ret None
       end
     else ret None);
  match err with
  | Some e => ret (Some e)
  | None =>
      changed ← dataHasChange d "reputation_metrics_enabled";
      err ←
        (if (changed : bool) then
           id ← dataId d;
           v ← dataGet d "reputation_metrics_enabled";
           enabled ← asBool v;
           let input :=
             Some {| Reputation_ConfigurationSetName := Go.String id;
                     Reputation_Enabled := Some enabled |} in
           '(_, err) ← UpdateConfigurationSetReputationMetricsEnabled c input;
           match err with
           | Some e =>
               id ← dataId d;
               ret (Some (Errorf
                            "error updating SES configuration set (%s) reputation metrics enabled: %w"
                            id e))
           | None => ret None
           end
         else ret None);
      match err with
      | Some e => ret (Some e)
      | None =>
          changed ← dataHasChange d "sending_enabled";
          err ←
            (if (changed : bool) then
               id ← dataId d;
               v ← dataGet d "sending_enabled";
               enabled ← asBool v;
               let input :=
                 Some {| Sending_ConfigurationSetName := Go.String id;
                         Sending_Enabled := Some enabled |} in
               '(_, err) ← UpdateConfigurationSetSendingEnabled c input;
               match err with
               | Some e =>
                   id ← dataId d;
                   ret (Some (Errorf
                                "error updating SES configuration set (%s) reputation metrics enabled: %w"
                                id e))
               | None => ret None
               end
             else ret None);
          match err with
          | Some e => ret (Some e)
          | None => resourceAwsSesConfigurationSetRead d meta
          end
      end
  end.
End Resource.
End aws_ses.

(** ** The calls that change a configuration set, on record *)

Module ses_audit.
Section Audit.
Context {World error conn rd Time : Type}.

(** The world is paired with a record of the errors (nil or not) that the
    calls which create or change a configuration set have returned, in
    order. *)
Definition Record_ : Type := list (option error).

(** An operation that leaves the record as it is. *)
Definition keep {A} (m : M World A) : M (World * Record_) A :=
  fun s => let '(r, w') := m (fst s) in (r, (w', snd s)).

(** A call whose error is put on record when it returns. *)
Definition noting {A} (m : M World (A * option error))
  : M (World * Record_) (A * option error) :=
  fun s =>
    match m (fst s) with
    | (Returned (a, err), w') => (Returned (a, err), (w', snd s ++ [err]))
    | (Panicked, w') => (Panicked, (w', snd s))
    end.

#[local] Instance audited_api (api : SES World error conn)
  : SES (World * Record_) error conn :=
  {| DeleteConfigurationSet c input := noting (DeleteConfigurationSet c input);
     logPrintf format a := keep (logPrintf format a);
     isAWSErr := isAWSErr;
     Errorf := Errorf |}.

#[local] Instance audited_sets (sets : SESConfigurationSets World error conn Time)
  : SESConfigurationSets (World * Record_) error conn Time :=
  {| CreateConfigurationSet c input := noting (CreateConfigurationSet c input);
     PutConfigurationSetDeliveryOptions c input :=
       noting (PutConfigurationSetDeliveryOptions c input);
     UpdateConfigurationSetReputationMetricsEnabled c input :=
       noting (UpdateConfigurationSetReputationMetricsEnabled c input);
     UpdateConfigurationSetSendingEnabled c input :=
       noting (UpdateConfigurationSetSendingEnabled c input);
     DescribeConfigurationSet c input := keep (DescribeConfigurationSet c input);
     Errorfw := Errorfw;
     Sprintf := Sprintf;
     arnString := arnString;
     formatTime := formatTime;
     partition := partition;
     region := region;
     accountid := accountid |}.

#[local] Instance audited_data (data : ResourceDataOps World error rd)
  : ResourceDataOps (World * Record_) error rd :=
  {| dataId d := keep (dataId d);
     dataSetId d id := keep (dataSetId d id);
     dataGet d k := keep (dataGet d k);
     dataGetOk d k := keep (dataGetOk d k);
     dataHasChange d k := keep (dataHasChange d k);
     dataSet d k v := keep (dataSet d k v) |}.
End Audit.
End ses_audit.

(** ** A scripted resource *)

Module ScriptSes.
Import Script.

(** Resource data that answers from a fixed table of attributes, reports
    the attributes listed in [changed] as changed, and whose id is
    "example"; writes are accepted. *)
Definition attributes : gmap string aws.value :=
  {[ "name" := aws.VString "example";
     "delivery_options" :=
       aws.VList [aws.VMap {[ "tls_policy" := aws.VString "Require" ]}];
     "reputation_metrics_enabled" := aws.VBool false;
     "sending_enabled" := aws.VBool true ]}.

Definition data_answers (changed : list string)
  : ResourceDataOps World error unit :=
  {| dataId _ := answer "example";
     dataSetId _ _ := answer tt;
     dataGet _ k := answer (aws.mapIndex attributes k);
     dataGetOk _ k :=
       answer (aws.mapIndex attributes k, bool_decide (is_Some (attributes !! k)));
     dataHasChange _ k := answer (bool_decide (k ∈ changed));
     dataSet _ _ _ := answer None |}.

(** An SES client that answers creating with [created], describing with
    [described], and putting delivery options or updating a flag with
    [changed]. *)
Definition sets_script (created : option error)
    (described : ptr (ses_api.DescribeConfigurationSetOutput unit) * option error)
    (changed : option error)
  : SESConfigurationSets World error conn unit :=
  {| CreateConfigurationSet _ _ := answer (None, created);
     PutConfigurationSetDeliveryOptions _ _ := answer (None, changed);
     UpdateConfigurationSetReputationMetricsEnabled _ _ := answer (None, changed);
     UpdateConfigurationSetSendingEnabled _ _ := answer (None, changed);
     DescribeConfigurationSet _ _ := answer described;
     Errorfw _ e := e;
     Sprintf _ a := a;
     arnString a := arn.Resource a;
     formatTime _ _ := "";
     partition _ := "aws";
     region _ := "eu-west-1";
     accountid _ := "123456789012" |}.

(** Creating or describing fails with [err], the other calls with [err']. *)
Definition sets_answers (err err' : option error)
  : SESConfigurationSets World error conn unit :=
  sets_script err (None, err) err'.

(** A described configuration set without reputation options. *)
Definition described : ses_api.DescribeConfigurationSetOutput unit :=
  {| ses_api.Output_ConfigurationSet :=
       Some {| ses_api.Name := Some "example" |};
     ses_api.Output_DeliveryOptions := Some {| ses.TlsPolicy := Some "Require" |};
     ses_api.Output_ReputationOptions := None |}.
End ScriptSes.

(** * Properties *)

(** ** Running a computation *)

Lemma bind_returned {World A B} (m : M World A) (k : A -> M World B) w a w' :
  m w = (Returned a, w') -> (m ≫= k) w = k a w'.
Proof. intros Hm. unfold mbind, M_bind, bind. now rewrite Hm. Qed.

Lemma bind_panicked {World A B} (m : M World A) (k : A -> M World B) w w' :
  m w = (Panicked, w') -> (m ≫= k) w = (Panicked, w').
Proof. intros Hm. unfold mbind, M_bind, bind. now rewrite Hm. Qed.

Lemma bind_pure_depends {World A B} (F : M World A) (k : A -> M World B) :
  pure_continuation k -> depends_only_on_fetch F (F ≫= k).
Proof.
  intros Hk. split.
  - intros w1 w2. unfold mbind, M_bind, bind.
    destruct (F w1) as [[a1|] v1], (F w2) as [[a2|] v2]; simpl;
      intros Heq; try discriminate; [|reflexivity].
    injection Heq as ->. apply Hk.
  - intros w. unfold mbind, M_bind, bind.
    destruct (F w) as [[a|] v]; simpl; [apply (Hk a v v) | reflexivity].
Qed.

(** ** The status probes *)

Section ProbeFacts.
Context {World error dcconn shconn lexconn : Type}.
Context {dcfinder : DirectConnectFinder World error dcconn}.
Context {shfinder : SecurityHubFinder World error shconn}.
Context {lexapi : LexModelBuilding World error lexconn}.
Variable NotFoundErr : error -> bool.
Variable ErrCodeEqualsErr : error -> string -> bool.

Import directconnect_waiter securityhub lex_waiter.

Ltac fetched H :=
  rewrite (bind_returned _ _ _ _ _ H); cbn [NotFound ErrCodeEquals notnil].

(** *** Not found *)

Lemma ConnectionState_not_found c id w out e w' :
  NotFoundErr e = true ->
  ConnectionByID c id w = (Returned (out, Some e), w') ->
  ConnectionState NotFoundErr c id w = (Returned (INil, "", None), w').
Proof. intros Hnf Hf. unfold ConnectionState. fetched Hf. now rewrite Hnf. Qed.

Lemma GatewayState_not_found c id w out e w' :
  NotFoundErr e = true ->
  GatewayByID c id w = (Returned (out, Some e), w') ->
  GatewayState NotFoundErr c id w = (Returned (INil, "", None), w').
Proof. intros Hnf Hf. unfold GatewayState. fetched Hf. now rewrite Hnf. Qed.

Lemma GatewayAssociationState_not_found c id w out e w' :
  NotFoundErr e = true ->
  GatewayAssociationByID c id w = (Returned (out, Some e), w') ->
  GatewayAssociationState NotFoundErr c id w = (Returned (INil, "", None), w').
Proof.
  intros Hnf Hf. unfold GatewayAssociationState. fetched Hf. now rewrite Hnf.
Qed.

Lemma HostedConnectionState_not_found c id w out e w' :
  NotFoundErr e = true ->
  HostedConnectionByID c id w = (Returned (out, Some e), w') ->
  HostedConnectionState NotFoundErr c id w = (Returned (INil, "", None), w').
Proof.
  intros Hnf Hf. unfold HostedConnectionState. fetched Hf. now rewrite Hnf.
Qed.

Lemma LagState_not_found c id w out e w' :
  NotFoundErr e = true ->
  LagByID c id w = (Returned (out, Some e), w') ->
  LagState NotFoundErr c id w = (Returned (INil, "", None), w').
Proof. intros Hnf Hf. unfold LagState. fetched Hf. now rewrite Hnf. Qed.

Lemma statusBotVersion_not_found c name version w out e w' :
  NotFoundErr e = true ->
  FindBotVersionByName c name version w = (Returned (out, Some e), w') ->
  statusBotVersion NotFoundErr c name version w
  = (Returned (INil, "", None), w').
Proof. intros Hnf Hf. unfold statusBotVersion. fetched Hf. now rewrite Hnf. Qed.

Lemma statusStandardsSubscription_not_found c arn w out e w' :
  NotFoundErr e = true ->
  FindStandardsSubscriptionByARN c arn w = (Returned (out, Some e), w') ->
  statusStandardsSubscription NotFoundErr c arn w
  = (Returned (IStr "", "NotFound", None), w').
Proof.
  intros Hnf Hf. unfold statusStandardsSubscription. fetched Hf.
  now rewrite Hnf.
Qed.

Lemma statusAdminAccountAdmin_not_found c id w w' :
  FindAdminAccount c id w = (Returned (None, None), w') ->
  statusAdminAccountAdmin c id w = (Returned (IPtr None, "NotFound", None), w').
Proof. intros Hf. unfold statusAdminAccountAdmin. now fetched Hf. Qed.

Lemma statusLexSlotType_not_found c id w out e w' :
  ErrCodeEqualsErr e lexmodelbuildingservice.ErrCodeNotFoundException = true ->
  GetSlotTypeVersions c
    (Some {| lexmodelbuildingservice.SlotTypeVersionsName := Go.String id |}) w
  = (Returned (out, Some e), w') ->
  statusLexSlotType ErrCodeEqualsErr c id w
  = (Returned (INil, "NOTFOUND", None), w').
Proof. intros Hnf Hf. unfold statusLexSlotType. fetched Hf. now rewrite Hnf. Qed.

Lemma statusLexSlotType_empty c id w out w' :
  noSlotTypes out = true ->
  GetSlotTypeVersions c
    (Some {| lexmodelbuildingservice.SlotTypeVersionsName := Go.String id |}) w
  = (Returned (out, None), w') ->
  statusLexSlotType ErrCodeEqualsErr c id w
  = (Returned (INil, "NOTFOUND", None), w').
Proof. intros Hnf Hf. unfold statusLexSlotType. fetched Hf. now rewrite Hnf. Qed.

Lemma statusLexIntent_not_found c id w out e w' :
  ErrCodeEqualsErr e lexmodelbuildingservice.ErrCodeNotFoundException = true ->
  GetIntentVersions c
    (Some {| lexmodelbuildingservice.IntentVersionsName := Go.String id |}) w
  = (Returned (out, Some e), w') ->
  statusLexIntent ErrCodeEqualsErr c id w
  = (Returned (INil, "NOTFOUND", None), w').
Proof. intros Hnf Hf. unfold statusLexIntent. fetched Hf. now rewrite Hnf. Qed.

Lemma statusLexIntent_empty c id w out w' :
  noIntents out = true ->
  GetIntentVersions c
    (Some {| lexmodelbuildingservice.IntentVersionsName := Go.String id |}) w
  = (Returned (out, None), w') ->
  statusLexIntent ErrCodeEqualsErr c id w
  = (Returned (INil, "NOTFOUND", None), w').
Proof. intros Hnf Hf. unfold statusLexIntent. fetched Hf. now rewrite Hnf. Qed.

Lemma statusLexBotAlias_not_found c alias bot w out e w' :
  ErrCodeEqualsErr e lexmodelbuildingservice.ErrCodeNotFoundException = true ->
  GetBotAlias c
    (Some {| lexmodelbuildingservice.AliasInputBotName := Go.String bot;
             lexmodelbuildingservice.AliasInputName := Go.String alias |}) w
  = (Returned (out, Some e), w') ->
  statusLexBotAlias ErrCodeEqualsErr c alias bot w
  = (Returned (INil, "NOTFOUND", None), w').
Proof. intros Hnf Hf. unfold statusLexBotAlias. fetched Hf. now rewrite Hnf. Qed.

Lemma statusLexBotAlias_empty c alias bot w w' :
  GetBotAlias c
    (Some {| lexmodelbuildingservice.AliasInputBotName := Go.String bot;
             lexmodelbuildingservice.AliasInputName := Go.String alias |}) w
  = (Returned (None, None), w') ->
  statusLexBotAlias ErrCodeEqualsErr c alias bot w
  = (Returned (INil, "NOTFOUND", None), w').
Proof. intros Hf. unfold statusLexBotAlias. now fetched Hf. Qed.

(** *** Other errors *)

Lemma ConnectionState_error c id w out e w' :
  NotFoundErr e = false ->
  ConnectionByID c id w = (Returned (out, Some e), w') ->
  ConnectionState NotFoundErr c id w = (Returned (INil, "", Some e), w').
Proof. intros Hnf Hf. unfold ConnectionState. fetched Hf. now rewrite Hnf. Qed.

Lemma GatewayState_error c id w out e w' :
  NotFoundErr e = false ->
  GatewayByID c id w = (Returned (out, Some e), w') ->
  GatewayState NotFoundErr c id w = (Returned (INil, "", Some e), w').
Proof. intros Hnf Hf. unfold GatewayState. fetched Hf. now rewrite Hnf. Qed.

Lemma GatewayAssociationState_error c id w out e w' :
  NotFoundErr e = false ->
  GatewayAssociationByID c id w = (Returned (out, Some e), w') ->
  GatewayAssociationState NotFoundErr c id w
  = (Returned (INil, "", Some e), w').
Proof.
  intros Hnf Hf. unfold GatewayAssociationState. fetched Hf. now rewrite Hnf.
Qed.

Lemma HostedConnectionState_error c id w out e w' :
  NotFoundErr e = false ->
  HostedConnectionByID c id w = (Returned (out, Some e), w') ->
  HostedConnectionState NotFoundErr c id w = (Returned (INil, "", Some e), w').
Proof.
  intros Hnf Hf. unfold HostedConnectionState. fetched Hf. now rewrite Hnf.
Qed.

Lemma LagState_error c id w out e w' :
  NotFoundErr e = false ->
  LagByID c id w = (Returned (out, Some e), w') ->
  LagState NotFoundErr c id w = (Returned (INil, "", Some e), w').
Proof. intros Hnf Hf. unfold LagState. fetched Hf. now rewrite Hnf. Qed.

Lemma statusBotVersion_error c name version w out e w' :
  NotFoundErr e = false ->
  FindBotVersionByName c name version w = (Returned (out, Some e), w') ->
  statusBotVersion NotFoundErr c name version w
  = (Returned (INil, "", Some e), w').
Proof. intros Hnf Hf. unfold statusBotVersion. fetched Hf. now rewrite Hnf. Qed.

Lemma statusStandardsSubscription_error c arn w out e w' :
  NotFoundErr e = false ->
  FindStandardsSubscriptionByARN c arn w = (Returned (out, Some e), w') ->
  statusStandardsSubscription NotFoundErr c arn w
  = (Returned (INil, "", Some e), w').
Proof.
  intros Hnf Hf. unfold statusStandardsSubscription. fetched Hf.
  now rewrite Hnf.
Qed.

(** This probe has no not-found test on the error: every error is
    returned. *)
Lemma statusAdminAccountAdmin_error c id w out e w' :
  FindAdminAccount c id w = (Returned (out, Some e), w') ->
  statusAdminAccountAdmin c id w = (Returned (INil, "Unknown", Some e), w').
Proof. intros Hf. unfold statusAdminAccountAdmin. now fetched Hf. Qed.

Lemma statusLexSlotType_error c id w out e w' :
  ErrCodeEqualsErr e lexmodelbuildingservice.ErrCodeNotFoundException = false ->
  GetSlotTypeVersions c
    (Some {| lexmodelbuildingservice.SlotTypeVersionsName := Go.String id |}) w
  = (Returned (out, Some e), w') ->
  statusLexSlotType ErrCodeEqualsErr c id w
  = (Returned (INil, "UNKNOWN", Some e), w').
Proof. intros Hnf Hf. unfold statusLexSlotType. fetched Hf. now rewrite Hnf. Qed.

Lemma statusLexIntent_error c id w out e w' :
  ErrCodeEqualsErr e lexmodelbuildingservice.ErrCodeNotFoundException = false ->
  GetIntentVersions c
    (Some {| lexmodelbuildingservice.IntentVersionsName := Go.String id |}) w
  = (Returned (out, Some e), w') ->
  statusLexIntent ErrCodeEqualsErr c id w
  = (Returned (INil, "UNKNOWN", Some e), w').
Proof. intros Hnf Hf. unfold statusLexIntent. fetched Hf. now rewrite Hnf. Qed.

Lemma statusLexBotAlias_error c alias bot w out e w' :
  ErrCodeEqualsErr e lexmodelbuildingservice.ErrCodeNotFoundException = false ->
  GetBotAlias c
    (Some {| lexmodelbuildingservice.AliasInputBotName := Go.String bot;
             lexmodelbuildingservice.AliasInputName := Go.String alias |}) w
  = (Returned (out, Some e), w') ->
  statusLexBotAlias ErrCodeEqualsErr c alias bot w
  = (Returned (INil, "UNKNOWN", Some e), w').
Proof. intros Hnf Hf. unfold statusLexBotAlias. fetched Hf. now rewrite Hnf. Qed.

(** *** An entity is found *)

Lemma ConnectionState_found c id w o w' :
  ConnectionByID c id w = (Returned (Some o, None), w') ->
  ConnectionState NotFoundErr c id w
  = (Returned (IPtr (Some o),
               StringValue (directconnect.ConnectionState o), None), w').
Proof. intros Hf. unfold ConnectionState. now fetched Hf. Qed.

Lemma GatewayState_found c id w o w' :
  GatewayByID c id w = (Returned (Some o, None), w') ->
  GatewayState NotFoundErr c id w
  = (Returned (IPtr (Some o),
               StringValue (directconnect.DirectConnectGatewayState o), None), w').
Proof. intros Hf. unfold GatewayState. now fetched Hf. Qed.

Lemma GatewayAssociationState_found c id w o w' :
  GatewayAssociationByID c id w = (Returned (Some o, None), w') ->
  GatewayAssociationState NotFoundErr c id w
  = (Returned (IPtr (Some o),
               StringValue (directconnect.AssociationState o), None), w').
Proof. intros Hf. unfold GatewayAssociationState. now fetched Hf. Qed.

Lemma HostedConnectionState_found c id w o w' :
  HostedConnectionByID c id w = (Returned (Some o, None), w') ->
  HostedConnectionState NotFoundErr c id w
  = (Returned (IPtr (Some o),
               StringValue (directconnect.ConnectionState o), None), w').
Proof. intros Hf. unfold HostedConnectionState. now fetched Hf. Qed.

Lemma LagState_found c id w o w' :
  LagByID c id w = (Returned (Some o, None), w') ->
  LagState NotFoundErr c id w
  = (Returned (IPtr (Some o), StringValue (directconnect.LagState o), None), w').
Proof. intros Hf. unfold LagState. now fetched Hf. Qed.

(** A finder that gives neither an entity nor an error makes the probe
    dereference a nil pointer. *)
Lemma ConnectionState_nil_output c id w w' :
  ConnectionByID c id w = (Returned (None, None), w') ->
  ConnectionState NotFoundErr c id w = (Panicked, w').
Proof. intros Hf. unfold ConnectionState. now fetched Hf. Qed.

(** *** The probes are pure closures *)

Ltac pure_probe :=
  apply bind_pure_depends; intros [[o|] [e|]] w1 w2;
  unfold mbind, M_bind, bind, deref, ret, panic; simpl;
  repeat match goal with
    | |- context [if ?b then _ else _] => destruct b
    end;
  split; reflexivity.

Lemma ConnectionState_pure c id :
  depends_only_on_fetch (ConnectionByID c id) (ConnectionState NotFoundErr c id).
Proof. pure_probe. Qed.

Lemma GatewayState_pure c id :
  depends_only_on_fetch (GatewayByID c id) (GatewayState NotFoundErr c id).
Proof. pure_probe. Qed.

Lemma GatewayAssociationState_pure c id :
  depends_only_on_fetch (GatewayAssociationByID c id)
    (GatewayAssociationState NotFoundErr c id).
Proof. pure_probe. Qed.

Lemma HostedConnectionState_pure c id :
  depends_only_on_fetch (HostedConnectionByID c id)
    (HostedConnectionState NotFoundErr c id).
Proof. pure_probe. Qed.

Lemma LagState_pure c id :
  depends_only_on_fetch (LagByID c id) (LagState NotFoundErr c id).
Proof. pure_probe. Qed.

Lemma statusAdminAccountAdmin_pure c id :
  depends_only_on_fetch (FindAdminAccount c id) (statusAdminAccountAdmin c id).
Proof. pure_probe. Qed.

Lemma statusStandardsSubscription_pure c arn :
  depends_only_on_fetch (FindStandardsSubscriptionByARN c arn)
    (statusStandardsSubscription NotFoundErr c arn).
Proof. pure_probe. Qed.

Lemma statusBotVersion_pure c name version :
  depends_only_on_fetch (FindBotVersionByName c name version)
    (statusBotVersion NotFoundErr c name version).
Proof. pure_probe. Qed.

Lemma statusLexSlotType_pure c id :
  depends_only_on_fetch
    (GetSlotTypeVersions c
       (Some {| lexmodelbuildingservice.SlotTypeVersionsName := Go.String id |}))
    (statusLexSlotType ErrCodeEqualsErr c id).
Proof. pure_probe. Qed.

Lemma statusLexIntent_pure c id :
  depends_only_on_fetch
    (GetIntentVersions c
       (Some {| lexmodelbuildingservice.IntentVersionsName := Go.String id |}))
    (statusLexIntent ErrCodeEqualsErr c id).
Proof. pure_probe. Qed.

Lemma statusLexBotAlias_pure c alias bot :
  depends_only_on_fetch
    (GetBotAlias c
       (Some {| lexmodelbuildingservice.AliasInputBotName := Go.String bot;
                lexmodelbuildingservice.AliasInputName := Go.String alias |}))
    (statusLexBotAlias ErrCodeEqualsErr c alias bot).
Proof. pure_probe. Qed.

(** *** The contract of the probes *)

(** C1, as the code has it: when the underlying fetch reports that the
    entity does not exist, every probe returns a nil error, but only the
    Direct Connect probes and [statusBotVersion] return the triple
    (nil, "", nil).  [statusStandardsSubscription] returns the empty
    string as snapshot with the status "NotFound",
    [statusAdminAccountAdmin] (whose finder reports absence by a nil
    account without error) returns the nil account pointer with the status
    "NotFound", and the Lex slot type, intent and bot alias probes return
    a nil snapshot with the status "NOTFOUND". *)
Theorem probes_when_not_found (dc : dcconn) (sh : shconn) (lx : lexconn)
    (id name version : string) (w w' : World) (e e' : error) :
  NotFoundErr e = true ->
  ErrCodeEqualsErr e' lexmodelbuildingservice.ErrCodeNotFoundException = true ->
  (forall out, ConnectionByID dc id w = (Returned (out, Some e), w') ->
     ConnectionState NotFoundErr dc id w = (Returned (INil, "", None), w'))
  /\ (forall out, GatewayByID dc id w = (Returned (out, Some e), w') ->
     GatewayState NotFoundErr dc id w = (Returned (INil, "", None), w'))
  /\ (forall out, GatewayAssociationByID dc id w = (Returned (out, Some e), w') ->
     GatewayAssociationState NotFoundErr dc id w
     = (Returned (INil, "", None), w'))
  /\ (forall out, HostedConnectionByID dc id w = (Returned (out, Some e), w') ->
     HostedConnectionState NotFoundErr dc id w = (Returned (INil, "", None), w'))
  /\ (forall out, LagByID dc id w = (Returned (out, Some e), w') ->
     LagState NotFoundErr dc id w = (Returned (INil, "", None), w'))
  /\ (forall out,
     FindBotVersionByName lx name version w = (Returned (out, Some e), w') ->
     statusBotVersion NotFoundErr lx name version w
     = (Returned (INil, "", None), w'))
  /\ (forall out,
     FindStandardsSubscriptionByARN sh id w = (Returned (out, Some e), w') ->
     statusStandardsSubscription NotFoundErr sh id w
     = (Returned (IStr "", "NotFound", None), w'))
  /\ (FindAdminAccount sh id w = (Returned (None, None), w') ->
     statusAdminAccountAdmin sh id w
     = (Returned (IPtr None, "NotFound", None), w'))
  /\ (forall out,
     GetSlotTypeVersions lx
       (Some {| lexmodelbuildingservice.SlotTypeVersionsName := Go.String id |}) w
     = (Returned (out, Some e'), w') ->
     statusLexSlotType ErrCodeEqualsErr lx id w
     = (Returned (INil, "NOTFOUND", None), w'))
  /\ (forall out,
     GetIntentVersions lx
       (Some {| lexmodelbuildingservice.IntentVersionsName := Go.String id |}) w
     = (Returned (out, Some e'), w') ->
     statusLexIntent ErrCodeEqualsErr lx id w
     = (Returned (INil, "NOTFOUND", None), w'))
  /\ (forall out,
     GetBotAlias lx
       (Some {| lexmodelbuildingservice.AliasInputBotName := Go.String name;
                lexmodelbuildingservice.AliasInputName := Go.String id |}) w
     = (Returned (out, Some e'), w') ->
     statusLexBotAlias ErrCodeEqualsErr lx id name w
     = (Returned (INil, "NOTFOUND", None), w')).
Proof.
  intros Hnf Hcode. repeat split; intros.
  - eapply ConnectionState_not_found; eassumption.
  - eapply GatewayState_not_found; eassumption.
  - eapply GatewayAssociationState_not_found; eassumption.
  - eapply HostedConnectionState_not_found; eassumption.
  - eapply LagState_not_found; eassumption.
  - eapply statusBotVersion_not_found; eassumption.
  - eapply statusStandardsSubscription_not_found; eassumption.
  - eapply statusAdminAccountAdmin_not_found; eassumption.
  - eapply statusLexSlotType_not_found; eassumption.
  - eapply statusLexIntent_not_found; eassumption.
  - eapply statusLexBotAlias_not_found; eassumption.
Qed.

(** C3: when the underlying fetch fails with an error that is not a
    not-found error, every probe returns that very error as the error of
    its triple. *)
Theorem probes_return_the_error (dc : dcconn) (sh : shconn) (lx : lexconn)
    (id name version : string) (w w' : World) (e : error) :
  NotFoundErr e = false ->
  ErrCodeEqualsErr e lexmodelbuildingservice.ErrCodeNotFoundException = false ->
  (forall out, ConnectionByID dc id w = (Returned (out, Some e), w') ->
     ConnectionState NotFoundErr dc id w = (Returned (INil, "", Some e), w'))
  /\ (forall out, GatewayByID dc id w = (Returned (out, Some e), w') ->
     GatewayState NotFoundErr dc id w = (Returned (INil, "", Some e), w'))
  /\ (forall out, GatewayAssociationByID dc id w = (Returned (out, Some e), w') ->
     GatewayAssociationState NotFoundErr dc id w
     = (Returned (INil, "", Some e), w'))
  /\ (forall out, HostedConnectionByID dc id w = (Returned (out, Some e), w') ->
     HostedConnectionState NotFoundErr dc id w
     = (Returned (INil, "", Some e), w'))
  /\ (forall out, LagByID dc id w = (Returned (out, Some e), w') ->
     LagState NotFoundErr dc id w = (Returned (INil, "", Some e), w'))
  /\ (forall out,
     FindBotVersionByName lx name version w = (Returned (out, Some e), w') ->
     statusBotVersion NotFoundErr lx name version w
     = (Returned (INil, "", Some e), w'))
  /\ (forall out,
     FindStandardsSubscriptionByARN sh id w = (Returned (out, Some e), w') ->
     statusStandardsSubscription NotFoundErr sh id w
     = (Returned (INil, "", Some e), w'))
  /\ (forall out, FindAdminAccount sh id w = (Returned (out, Some e), w') ->
     statusAdminAccountAdmin sh id w
     = (Returned (INil, "Unknown", Some e), w'))
  /\ (forall out,
     GetSlotTypeVersions lx
       (Some {| lexmodelbuildingservice.SlotTypeVersionsName := Go.String id |}) w
     = (Returned (out, Some e), w') ->
     statusLexSlotType ErrCodeEqualsErr lx id w
     = (Returned (INil, "UNKNOWN", Some e), w'))
  /\ (forall out,
     GetIntentVersions lx
       (Some {| lexmodelbuildingservice.IntentVersionsName := Go.String id |}) w
     = (Returned (out, Some e), w') ->
     statusLexIntent ErrCodeEqualsErr lx id w
     = (Returned (INil, "UNKNOWN", Some e), w'))
  /\ (forall out,
     GetBotAlias lx
       (Some {| lexmodelbuildingservice.AliasInputBotName := Go.String name;
                lexmodelbuildingservice.AliasInputName := Go.String id |}) w
     = (Returned (out, Some e), w') ->
     statusLexBotAlias ErrCodeEqualsErr lx id name w
     = (Returned (INil, "UNKNOWN", Some e), w')).
Proof.
  intros Hnf Hcode. repeat split; intros.
  - eapply ConnectionState_error; eassumption.
  - eapply GatewayState_error; eassumption.
  - eapply GatewayAssociationState_error; eassumption.
  - eapply HostedConnectionState_error; eassumption.
  - eapply LagState_error; eassumption.
  - eapply statusBotVersion_error; eassumption.
  - eapply statusStandardsSubscription_error; eassumption.
  - eapply statusAdminAccountAdmin_error; eassumption.
  - eapply statusLexSlotType_error; eassumption.
  - eapply statusLexIntent_error; eassumption.
  - eapply statusLexBotAlias_error; eassumption.
Qed.

(** C5: when its finder returns an entity and no error, a Direct Connect
    probe returns that very entity as the snapshot, the value of the
    entity's state field as the status, and a nil error. *)
Theorem directconnect_probes_forward_entity (dc : dcconn) (id : string)
    (w w' : World) :
  (forall o, ConnectionByID dc id w = (Returned (Some o, None), w') ->
     ConnectionState NotFoundErr dc id w
     = (Returned (IPtr (Some o),
                  StringValue (directconnect.ConnectionState o), None), w'))
  /\ (forall o, GatewayByID dc id w = (Returned (Some o, None), w') ->
     GatewayState NotFoundErr dc id w
     = (Returned (IPtr (Some o),
                  StringValue (directconnect.DirectConnectGatewayState o),
                  None), w'))
  /\ (forall o, HostedConnectionByID dc id w = (Returned (Some o, None), w') ->
     HostedConnectionState NotFoundErr dc id w
     = (Returned (IPtr (Some o),
                  StringValue (directconnect.ConnectionState o), None), w'))
  /\ (forall o, LagByID dc id w = (Returned (Some o, None), w') ->
     LagState NotFoundErr dc id w
     = (Returned (IPtr (Some o),
                  StringValue (directconnect.LagState o), None), w'))
  /\ (forall o, GatewayAssociationByID dc id w = (Returned (Some o, None), w') ->
     GatewayAssociationState NotFoundErr dc id w
     = (Returned (IPtr (Some o),
                  StringValue (directconnect.AssociationState o), None), w')).
Proof.
  repeat split; intros.
  - now apply ConnectionState_found.
  - now apply GatewayState_found.
  - now apply HostedConnectionState_found.
  - now apply LagState_found.
  - now apply GatewayAssociationState_found.
Qed.

(** C6: every probe constructor returns a pure closure over its
    connection and identifier: the triple an invocation returns is
    determined by the outcome of the underlying fetch, so two invocations
    with the same fetch outcome return identical triples, and an
    invocation leaves the world exactly as the fetch left it, so
    invocations share no state of the probe's own. *)
Theorem probes_are_pure_closures (dc : dcconn) (sh : shconn) (lx : lexconn)
    (id name version : string) :
  depends_only_on_fetch (ConnectionByID dc id)
    (ConnectionState NotFoundErr dc id)
  /\ depends_only_on_fetch (GatewayByID dc id) (GatewayState NotFoundErr dc id)
  /\ depends_only_on_fetch (GatewayAssociationByID dc id)
       (GatewayAssociationState NotFoundErr dc id)
  /\ depends_only_on_fetch (HostedConnectionByID dc id)
       (HostedConnectionState NotFoundErr dc id)
  /\ depends_only_on_fetch (LagByID dc id) (LagState NotFoundErr dc id)
  /\ depends_only_on_fetch (FindAdminAccount sh id)
       (statusAdminAccountAdmin sh id)
  /\ depends_only_on_fetch (FindStandardsSubscriptionByARN sh id)
       (statusStandardsSubscription NotFoundErr sh id)
  /\ depends_only_on_fetch (FindBotVersionByName lx name version)
       (statusBotVersion NotFoundErr lx name version)
  /\ depends_only_on_fetch
       (GetSlotTypeVersions lx
          (Some {| lexmodelbuildingservice.SlotTypeVersionsName := Go.String id |}))
       (statusLexSlotType ErrCodeEqualsErr lx id)
  /\ depends_only_on_fetch
       (GetIntentVersions lx
          (Some {| lexmodelbuildingservice.IntentVersionsName := Go.String id |}))
       (statusLexIntent ErrCodeEqualsErr lx id)
  /\ depends_only_on_fetch
       (GetBotAlias lx
          (Some {| lexmodelbuildingservice.AliasInputBotName := Go.String name;
                   lexmodelbuildingservice.AliasInputName := Go.String id |}))
       (statusLexBotAlias ErrCodeEqualsErr lx id name).
Proof.
  repeat match goal with |- _ /\ _ => split end.
  - apply ConnectionState_pure.
  - apply GatewayState_pure.
  - apply GatewayAssociationState_pure.
  - apply HostedConnectionState_pure.
  - apply LagState_pure.
  - apply statusAdminAccountAdmin_pure.
  - apply statusStandardsSubscription_pure.
  - apply statusBotVersion_pure.
  - apply statusLexSlotType_pure.
  - apply statusLexIntent_pure.
  - apply statusLexBotAlias_pure.
Qed.
End ProbeFacts.

(** *** The probes on the scripted system *)

(** C1 as stated fails: on a not-found fetch [statusStandardsSubscription]
    returns the empty string with the status "NotFound", not (nil, "", nil);
    so do [statusAdminAccountAdmin] and [statusLexSlotType] with their own
    not-found statuses. *)
Lemma not_found_is_not_always_nil :
  FindStandardsSubscriptionByARN (SecurityHubFinder := Script.sh_missing) tt "arn" 0
  = (Returned (None, Some Script.notFoundError), 1)
  /\ NotFound Script.NotFoundErr (Some Script.notFoundError) = true
  /\ securityhub.statusStandardsSubscription (finder := Script.sh_missing)
       Script.NotFoundErr tt "arn" 0
     = (Returned (IStr "", "NotFound", None), 1)
  /\ securityhub.statusStandardsSubscription (finder := Script.sh_missing)
       Script.NotFoundErr tt "arn" 0
     <> (Returned (INil, "", None), 1)
  /\ securityhub.statusAdminAccountAdmin (finder := Script.sh_missing) tt "123456789012" 0
     <> (Returned (INil, "", None), 1)
  /\ lex_waiter.statusLexSlotType (api := Script.lex_missing)
       Script.ErrCodeEqualsErr tt "slot" 0
     <> (Returned (INil, "", None), 1).
Proof. repeat split; try reflexivity; discriminate. Qed.

Lemma probes_when_not_found_witness :
  directconnect_waiter.ConnectionState (finder := Script.dc_missing)
    Script.NotFoundErr tt "dxcon-fg5678gh" 0
  = (Returned (INil, "", None), 1)
  /\ securityhub.statusStandardsSubscription (finder := Script.sh_missing)
       Script.NotFoundErr tt "dxcon-fg5678gh" 0
     = (Returned (IStr "", "NotFound", None), 1)
  /\ securityhub.statusAdminAccountAdmin (finder := Script.sh_missing)
       tt "dxcon-fg5678gh" 0
     = (Returned (IPtr None, "NotFound", None), 1)
  /\ lex_waiter.statusLexSlotType (api := Script.lex_missing)
       Script.ErrCodeEqualsErr tt "dxcon-fg5678gh" 0
     = (Returned (INil, "NOTFOUND", None), 1).
Proof.
  destruct (probes_when_not_found
              (dcfinder := Script.dc_missing)
              (shfinder := Script.sh_missing)
              (lexapi := Script.lex_missing)
              Script.NotFoundErr Script.ErrCodeEqualsErr
              tt tt tt "dxcon-fg5678gh" "bot" "1" 0 1
              Script.notFoundError
              lexmodelbuildingservice.ErrCodeNotFoundException
              eq_refl eq_refl)
    as (Hc & _ & _ & _ & _ & _ & Hs & Ha & Hl & _).
  exact (conj (Hc None eq_refl)
           (conj (Hs None eq_refl) (conj (Ha eq_refl) (Hl None eq_refl)))).
Defined.

Lemma probes_return_the_error_witness :
  directconnect_waiter.LagState (finder := Script.dc_denied)
    Script.NotFoundErr tt "dxlag-1" 0
  = (Returned (INil, "", Some Script.accessDenied), 1)
  /\ securityhub.statusAdminAccountAdmin (finder := Script.sh_denied) tt "dxlag-1" 0
     = (Returned (INil, "Unknown", Some Script.accessDenied), 1)
  /\ lex_waiter.statusLexSlotType (api := Script.lex_denied)
       Script.ErrCodeEqualsErr tt "dxlag-1" 0
     = (Returned (INil, "UNKNOWN", Some Script.accessDenied), 1).
Proof.
  destruct (probes_return_the_error
              (dcfinder := Script.dc_denied)
              (shfinder := Script.sh_denied)
              (lexapi := Script.lex_denied)
              Script.NotFoundErr Script.ErrCodeEqualsErr
              tt tt tt "dxlag-1" "bot" "1" 0 1 Script.accessDenied
              eq_refl eq_refl)
    as (_ & _ & _ & _ & Hl & _ & _ & Ha & Hs & _).
  exact (conj (Hl None eq_refl) (conj (Ha None eq_refl) (Hs None eq_refl))).
Defined.

Lemma probes_are_pure_closures_witness :
  fst (directconnect_waiter.ConnectionState (finder := Script.dc_present)
         Script.NotFoundErr tt "dxcon-fg5678gh" 0)
  = fst (directconnect_waiter.ConnectionState (finder := Script.dc_present)
           Script.NotFoundErr tt "dxcon-fg5678gh" 7).
Proof.
  apply (proj1 (proj1 (probes_are_pure_closures
                         (dcfinder := Script.dc_present)
                         (shfinder := Script.sh_missing)
                         (lexapi := Script.lex_missing)
                         Script.NotFoundErr Script.ErrCodeEqualsErr
                         tt tt tt "dxcon-fg5678gh" "bot" "1"))).
  reflexivity.
Defined.

Lemma directconnect_probes_forward_entity_witness :
  directconnect_waiter.ConnectionState (finder := Script.dc_present)
    Script.NotFoundErr tt "dxcon-fg5678gh" 0
  = (Returned (IPtr (Some Script.connection), "available", None), 1)
  /\ directconnect_waiter.LagState (finder := Script.dc_present)
       Script.NotFoundErr tt "dxcon-fg5678gh" 0
     = (Returned (IPtr (Some Script.lag), "", None), 1).
Proof.
  destruct (directconnect_probes_forward_entity
              (dcfinder := Script.dc_present)
              Script.NotFoundErr tt "dxcon-fg5678gh" 0 1)
    as (Hc & _ & _ & Hl & _).
  exact (conj (Hc Script.connection eq_refl) (Hl Script.lag eq_refl)).
Defined.

(** ** Pagination of capacity providers *)

Import lister.

(** One iteration of the loop. *)
Lemma pages_step {World error conn Context : Type}
    (api : ECS World error conn Context) fuel ctx c input
    (fn : @PageFn World) w :
    DescribeCapacityProvidersPagesWithContext (S fuel) ctx c input fn w
    = match DescribeCapacityProvidersWithContext c ctx input w with
      | (Panicked, w1) => (Panicked, w1)
      | (Returned (_, Some e), w1) => (Returned (Finished (Some e), input), w1)
      | (Returned (None, None), w1) => (Panicked, w1)
      | (Returned (Some o, None), w1) =>
          let lastPage := String.eqb (StringValue (ecs.OutputNextToken o)) "" in
          match fn (Some o) lastPage w1 with
          | (Panicked, w2) => (Panicked, w2)
          | (Returned more, w2) =>
              if negb more || lastPage
              then (Returned (Finished None, input), w2)
              else
                match input with
                | None => (Panicked, w2)
                | Some i =>
                    DescribeCapacityProvidersPagesWithContext fuel ctx c
                      (Some (ecs.setNextToken i (ecs.OutputNextToken o))) fn w2
                end
          end
      end.
  Proof.
    cbn [DescribeCapacityProvidersPagesWithContext].
    unfold mbind, M_bind, bind.
    destruct (DescribeCapacityProvidersWithContext c ctx input w)
      as [[[[o|] [e|]]|] w1]; try reflexivity.
    cbn [notnil deref ret].
    destruct (fn _ _ w1) as [[more|] w2]; try reflexivity.
    destruct (negb more || _); try reflexivity.
    destruct input; reflexivity.
  Qed.

Section PagesFacts.
Context {World error conn Context : Type}.
Context {api : ECS World error conn Context}.

Lemma logged_apply (fn : @PageFn World) page lastPage w (log : list Call) :
  logged fn page lastPage (w, log)
  = match fn page lastPage w with
    | (Returned more, w') =>
        (Returned more, (w', log ++ [(page, lastPage, more)]))
    | (Panicked, w') => (Panicked, (w', log))
    end.
Proof. reflexivity. Qed.

(** A run that ends otherwise than by returning nil or by running out of
    iterations fits an empty list of invocations. *)
Lemma stops_when_told_nil {W} fuel
    (r : outcome (run (option error) * ptr ecs.DescribeCapacityProvidersInput) * W) :
  match fst r with
  | Returned (Finished None, _) | Returned (OutOfFuel, _) => False
  | _ => True
  end ->
  stops_when_told fuel r [].
Proof.
  unfold stops_when_told.
  destruct (fst r) as [[[[?|]|] ?]|]; simpl; tauto.
Qed.

Lemma stops_when_told_cons {W} fuel
    (r : outcome (run (option error) * ptr ecs.DescribeCapacityProvidersInput) * W)
    (call : Call) calls :
  goes_on call = true ->
  stops_when_told fuel r calls -> stops_when_told (S fuel) r (call :: calls).
Proof.
  unfold stops_when_told. intros Hgo.
  destruct (fst r) as [[[[?|]|] ?]|]; simpl; rewrite ?Hgo; try tauto.
  - intros (init & c & -> & Hinit & Hc). exists (call :: init), c.
    simpl. rewrite Hgo. auto.
  - intros [-> <-]. auto.
Qed.

(** A run with the logging callback behaves as the run with the callback
    itself, and the log it adds records invocations with a correct
    [lastPage] flag that end as [stops_when_told] says. *)
Lemma logged_run fuel :
  forall ctx c input (fn : @PageFn World) w log0,
    let r := DescribeCapacityProvidersPagesWithContext (api := lifted api)
               fuel ctx c input (logged fn) (w, log0) in
    let r0 := DescribeCapacityProvidersPagesWithContext fuel ctx c input fn w in
    fst r = fst r0 /\ fst (snd r) = snd r0
    /\ exists calls, snd (snd r) = log0 ++ calls
         /\ forallb flag_ok calls = true
         /\ stops_when_told fuel r0 calls.
Proof.
  assert (Hnone : forall l : list Call, l = l ++ [])
    by (intros; now rewrite app_nil_r).
  induction fuel as [|fuel IH]; intros ctx c input fn w log0.
  - simpl. split; [reflexivity|split; [reflexivity|]].
    exists []. split; [apply Hnone|]. split; [reflexivity|].
    unfold stops_when_told. simpl. auto.
  - intros r r0. subst r r0.
    rewrite (pages_step (lifted api)), (pages_step api).
    cbn [DescribeCapacityProvidersWithContext lifted]. unfold lift. cbn [fst snd].
    destruct (DescribeCapacityProvidersWithContext c ctx input w)
      as [[[[o|] [e|]]|] w1] eqn:Hfetch;
      try (cbn [fst snd]; split; [reflexivity|split; [reflexivity|]];
           exists []; split; [apply Hnone|]; split; [reflexivity|];
           now apply stops_when_told_nil).
    cbv zeta. rewrite logged_apply.
    destruct (fn (Some o) _ w1) as [[more|] w2] eqn:Hfn;
      try (cbn [fst snd]; split; [reflexivity|split; [reflexivity|]];
           exists []; split; [apply Hnone|]; split; [reflexivity|];
           now apply stops_when_told_nil).
    set (lastPage := String.eqb (StringValue (ecs.OutputNextToken o)) "").
    destruct (negb more || lastPage) eqn:Hstop.
    + cbn [fst snd]. split; [reflexivity|split; [reflexivity|]].
      exists [(Some o, lastPage, more)]. split; [reflexivity|]. split.
      * simpl. subst lastPage. now rewrite Bool.eqb_reflx.
      * unfold stops_when_told. cbn [fst]. exists [], (Some o, lastPage, more).
        repeat split. simpl. destruct more, lastPage; simpl in *; congruence.
    + destruct input as [i|].
      * specialize (IH ctx c (Some (ecs.setNextToken i (ecs.OutputNextToken o)))
                      fn w2 (log0 ++ [(Some o, lastPage, more)])).
        cbv zeta in IH. destruct IH as (H1 & H2 & calls & H3 & H4 & H5).
        split; [exact H1|split; [exact H2|]].
        exists ((Some o, lastPage, more) :: calls). split.
        { etransitivity; [exact H3|]. now rewrite <- app_assoc. }
        split.
        { simpl. rewrite H4. subst lastPage. now rewrite Bool.eqb_reflx. }
        apply stops_when_told_cons; [|exact H5].
        simpl. destruct more, lastPage; simpl in *; congruence.
      * cbn [fst snd]. split; [reflexivity|split; [reflexivity|]].
        exists [(Some o, lastPage, more)]. split; [reflexivity|]. split.
        { simpl. subst lastPage. now rewrite Bool.eqb_reflx. }
        unfold stops_when_told. cbn [fst]. simpl.
        destruct more, lastPage; simpl in *; congruence.
Qed.

(** The result of a run that finished does not depend on the iterations
    left over. *)
Lemma pages_enough_fuel fuel :
  forall more ctx c input (fn : @PageFn World) w r i w',
    DescribeCapacityProvidersPagesWithContext fuel ctx c input fn w
    = (Returned (Finished r, i), w') ->
    DescribeCapacityProvidersPagesWithContext (fuel + more) ctx c input fn w
    = (Returned (Finished r, i), w').
Proof.
  induction fuel as [|fuel IH]; intros more ctx c input fn w r i w'.
  - discriminate.
  - change (S fuel + more) with (S (fuel + more)). rewrite !pages_step.
    destruct (DescribeCapacityProvidersWithContext c ctx input w)
      as [[[[o|] [e|]]|] w1]; try (intros; assumption).
    cbv zeta. destruct (fn (Some o) _ w1) as [[goon|] w2]; try (intros; assumption).
    destruct (negb goon || _); try (intros; assumption).
    destruct input as [inp|]; try (intros; assumption).
    apply IH.
Qed.

Lemma watched_apply (fn : @PageFn World) page lastPage w
    (log : list (@lister_events.Event error)) :
  lister_events.watched fn page lastPage (w, log)
  = (fst (fn page lastPage w),
     (snd (fn page lastPage w),
      log ++ [lister_events.Callback page lastPage (fst (fn page lastPage w))])).
Proof.
  unfold lister_events.watched. cbn [fst snd]. now destruct (fn page lastPage w).
Qed.

(** A run that is watched behaves as the run itself, and the events it
    adds are those of a listing from the input that ends as the run
    does. *)
Lemma watched_run fuel :
  forall ctx c input (fn : @PageFn World) w log0,
    let r := DescribeCapacityProvidersPagesWithContext
               (api := lister_events.watching api)
               fuel ctx c input (lister_events.watched fn) (w, log0) in
    let r0 := DescribeCapacityProvidersPagesWithContext fuel ctx c input fn w in
    fst r = fst r0 /\ fst (snd r) = snd r0
    /\ exists evs, snd (snd r) = log0 ++ evs
         /\ lister_events.listing fuel input evs (fst r0).
Proof.
  induction fuel as [|fuel IH]; intros ctx c input fn w log0.
  - simpl. split; [reflexivity|split; [reflexivity|]].
    exists []. split; [now rewrite app_nil_r|]. now split.
  - intros r r0. subst r r0.
    rewrite (pages_step (lister_events.watching api)), (pages_step api).
    cbn [DescribeCapacityProvidersWithContext lister_events.watching fst snd].
    destruct (DescribeCapacityProvidersWithContext c ctx input w)
      as [answer w1] eqn:Hfetch.
    destruct answer as [[[o|] [e|]]|]; cbn [fst snd];
      try (split; [reflexivity|split; [reflexivity|]];
           eexists; split; [reflexivity|];
           cbn [lister_events.listing]; eexists _, [];
           split; [reflexivity|]; now split).
    cbv zeta. rewrite watched_apply.
    destruct (fn (Some o) _ w1) as [[more|] w2] eqn:Hfn; cbn [fst snd].
    2:{ split; [reflexivity|split; [reflexivity|]].
        eexists. split; [now rewrite <- app_assoc|].
        cbn [lister_events.listing]. eexists _, _. split; [reflexivity|].
        cbv zeta. eexists _, []. split; [reflexivity|]. now split. }
    set (lastPage := String.eqb (StringValue (ecs.OutputNextToken o)) "") in *.
    destruct (negb more || lastPage) eqn:Hstop.
    + cbn [fst snd]. split; [reflexivity|split; [reflexivity|]].
      eexists. split; [now rewrite <- app_assoc|].
      cbn [lister_events.listing]. eexists _, _. split; [reflexivity|].
      cbv zeta. eexists _, []. split; [reflexivity|].
      cbv beta iota. fold lastPage. rewrite Hstop. now split.
    + destruct input as [i|].
      * specialize (IH ctx c (Some (ecs.setNextToken i (ecs.OutputNextToken o)))
                      fn w2
                      ((log0 ++ [lister_events.Request (Some i)
                                   (Returned (Some o, None))])
                       ++ [lister_events.Callback (Some o) lastPage
                             (Returned more)])).
        cbv zeta in IH. destruct IH as (H1 & H2 & evs & H3 & H4).
        split; [exact H1|split; [exact H2|]].
        exists (lister_events.Request (Some i) (Returned (Some o, None))
                :: lister_events.Callback (Some o) lastPage (Returned more)
                :: evs).
        split.
        { etransitivity; [exact H3|]. now rewrite <- !app_assoc. }
        cbn [lister_events.listing]. eexists _, _. split; [reflexivity|].
        cbv zeta. eexists _, _. split; [reflexivity|].
        cbv beta iota. fold lastPage. rewrite Hstop. exact H4.
      * cbn [fst snd]. split; [reflexivity|split; [reflexivity|]].
        eexists. split; [now rewrite <- app_assoc|].
        cbn [lister_events.listing]. eexists _, _. split; [reflexivity|].
        cbv zeta. eexists _, []. split; [reflexivity|].
        cbv beta iota. fold lastPage. rewrite Hstop. now split.
Qed.

(** C8: [DescribeCapacityProvidersPages] is
    [DescribeCapacityProvidersPagesWithContext] with the background
    context: the two return the same result and leave the same world, and
    they make the same requests to the client and the same invocations of
    the callback, in the same order.  Under any context the run is a
    listing: each iteration requests the client with the current input;
    the page the client answers is the page handed to the callback, with
    [lastPage = true] exactly when the page has no next token; the loop
    goes on, with the token of the page as the next token of the input,
    only when the callback answered [true] on a page that was not the
    last, and otherwise the function returns nil; an error of the client
    is returned and ends the run. *)
Theorem pages_runs_the_context_loop (fuel : nat) (ctx : Context) (c : conn)
    (input : ptr ecs.DescribeCapacityProvidersInput) (fn : @PageFn World)
    (w : World) :
  DescribeCapacityProvidersPages fuel c input fn w
  = DescribeCapacityProvidersPagesWithContext fuel Background c input fn w
  /\ invocationsOfPages fuel c input fn w
     = invocations fuel Background c input fn w
  /\ forallb flag_ok (invocations fuel ctx c input fn w) = true
  /\ stops_when_told fuel
       (DescribeCapacityProvidersPagesWithContext fuel ctx c input fn w)
       (invocations fuel ctx c input fn w)
  /\ lister_events.eventsOfPages fuel c input fn w
     = lister_events.events fuel Background c input fn w
  /\ lister_events.listing fuel input
       (lister_events.events fuel ctx c input fn w)
       (fst (DescribeCapacityProvidersPagesWithContext fuel ctx c input fn w)).
Proof.
  split; [reflexivity|]. split; [reflexivity|].
  destruct (logged_run fuel ctx c input fn w [])
    as (_ & _ & calls & Hlog & Hflags & Hstop).
  destruct (watched_run fuel ctx c input fn w [])
    as (_ & _ & evs & Hevs & Hlisting).
  unfold invocations, lister_events.events. rewrite Hlog, Hevs. simpl.
  split; [exact Hflags|]. split; [exact Hstop|]. split; [reflexivity|].
  exact Hlisting.
Qed.
End PagesFacts.

(** The events of the listing on the scripted system: each request is
    followed by the invocation of the callback with the page it got. *)
Example two_pages_events :
  lister_events.events (api := Script.ecs_two_pages) 5 tt tt
    (Some Script.noInput) Script.every_page 0
  = [lister_events.Request (Some Script.noInput)
       (Returned (Some Script.page1, None));
     lister_events.Callback (Some Script.page1) false (Returned true);
     lister_events.Request
       (Some (ecs.setNextToken Script.noInput (Some "page-2")))
       (Returned (Some Script.page2, None));
     lister_events.Callback (Some Script.page2) true (Returned true)].
Proof. reflexivity. Qed.

(** On the scripted system the loop fetches both pages for a callback that
    asks for every page, and one page for a callback that stops at once. *)
Example two_pages_listed :
  invocations (api := Script.ecs_two_pages) 5 tt tt (Some Script.noInput)
    Script.every_page 0
  = [(Some Script.page1, false, true); (Some Script.page2, true, true)]
  /\ DescribeCapacityProvidersPages (api := Script.ecs_two_pages) 5 tt
       (Some Script.noInput) Script.every_page 0
     = (Returned (Finished None,
                  Some (ecs.setNextToken Script.noInput (Some "page-2"))), 2)
  /\ invocations (api := Script.ecs_two_pages) 5 tt tt (Some Script.noInput)
       Script.first_page_only 0
     = [(Some Script.page1, false, false)].
Proof. repeat split. Qed.

(** ** SES configuration sets *)

Section SesFacts.
Context {World error conn : Type}.
Context {api : SES World error conn}.

Import aws.

(** What the delete function returns, from what the client answered. *)
Lemma delete_returns (d : ResourceData) (client : AWSClient conn)
    (w w1 w2 : World) out err :
  logPrintf "[DEBUG] SES Delete Configuration Rule Set: %s" (Id d) w
  = (Returned tt, w1) ->
  DeleteConfigurationSet (sesconn client)
    (Some {| ses.ConfigurationSetName := Go.String (Id d) |}) w1
  = (Returned (out, err), w2) ->
  resourceAwsSesConfigurationSetDelete d (IPtr (Some client)) w
  = (Returned
       match err with
       | Some e =>
           if isAWSErr e ses.ErrCodeConfigurationSetDoesNotExistException ""
           then None
           else Some (Errorf "error deleting SES Configuration Set (%s): %w"
                        (Id d) e)
       | None => None
       end, w2).
Proof.
  intros Hlog Hdel. unfold resourceAwsSesConfigurationSetDelete.
  unfold mbind, M_bind, bind. cbn [asAWSClient deref ret].
  rewrite Hlog, Hdel.
  destruct err as [e|]; [|reflexivity].
  now destruct (isAWSErr e _ _).
Qed.

(** C9: deleting is idempotent with respect to absence.  When
    [DeleteConfigurationSet] fails with
    ConfigurationSetDoesNotExistException the function returns nil, as it
    does when the call succeeds; it returns a non-nil error exactly when
    the call fails with another error, and that error wraps the cause. *)
Theorem delete_ignores_missing_configuration_set (d : ResourceData)
    (client : AWSClient conn) (w w1 w2 : World) out err :
  logPrintf "[DEBUG] SES Delete Configuration Rule Set: %s" (Id d) w
  = (Returned tt, w1) ->
  DeleteConfigurationSet (sesconn client)
    (Some {| ses.ConfigurationSetName := Go.String (Id d) |}) w1
  = (Returned (out, err), w2) ->
  exists r,
    resourceAwsSesConfigurationSetDelete d (IPtr (Some client)) w
    = (Returned r, w2)
    /\ (forall e, err = Some e ->
          isAWSErr e ses.ErrCodeConfigurationSetDoesNotExistException "" = true ->
          r = None)
    /\ (err = None -> r = None)
    /\ (forall e, err = Some e ->
          isAWSErr e ses.ErrCodeConfigurationSetDoesNotExistException "" = false ->
          r = Some (Errorf "error deleting SES Configuration Set (%s): %w"
                      (Id d) e))
    /\ (r <> None ->
          exists e, err = Some e
            /\ isAWSErr e ses.ErrCodeConfigurationSetDoesNotExistException ""
               = false).
Proof.
  intros Hlog Hdel. eexists. split; [exact (delete_returns _ _ _ _ _ _ _ Hlog Hdel)|].
  destruct err as [e|].
  - destruct (isAWSErr e _ _) eqn:Hcode.
    + split; [reflexivity|]. split; [reflexivity|].
      split; [intros e' [= <-] He'; congruence|]. congruence.
    + split; [intros e' [= <-] He'; congruence|]. split; [discriminate|].
      split; [intros e' [= <-] _; reflexivity|]. intros _. now exists e.
  - split; [reflexivity|]. split; [reflexivity|].
    split; [discriminate|]. congruence.
Qed.
End SesFacts.

Lemma delete_ignores_missing_configuration_set_witness :
  aws.resourceAwsSesConfigurationSetDelete (api := Script.ses_gone)
    Script.configurationSet (IPtr (Some Script.client)) 0
  = (Returned None, 1).
Proof.
  destruct (delete_ignores_missing_configuration_set (api := Script.ses_gone)
              Script.configurationSet Script.client 0 0 1 None
              (Some ses.ErrCodeConfigurationSetDoesNotExistException)
              eq_refl eq_refl)
    as (r & Hrun & Hgone & _).
  rewrite Hrun. now rewrite (Hgone _ eq_refl eq_refl).
Defined.

(** Another error is returned, wrapped. *)
Example delete_reports_other_errors :
  aws.resourceAwsSesConfigurationSetDelete (api := Script.ses_denied)
    Script.configurationSet (IPtr (Some Script.client)) 0
  = (Returned (Some "example: AccessDeniedException"), 1).
Proof. reflexivity. Qed.

(** *** Delivery options *)

Lemma expand_tls_policy (m : gmap string aws.value) (v : string)
    (l : list aws.value) :
  m !! "tls_policy" = Some (aws.VString v) -> v <> "" ->
  aws.expandSesConfigurationSetDeliveryOptions (Some (aws.VMap m :: l))
  = Some {| ses.TlsPolicy := Some v |}.
Proof.
  intros Hm Hv. unfold aws.expandSesConfigurationSetDeliveryOptions.
  cbn [aws.len length Nat.eqb aws.index lookup list_lookup].
  unfold aws.mapIndex. rewrite Hm.
  destruct (String.eqb_spec v ""); [contradiction|reflexivity].
Qed.

(** C10: the conversion of delivery options round-trips.  For a one-element
    list whose element is a map with a non-empty string [v] under
    "tls_policy", flattening the expansion gives a one-element list whose
    element maps "tls_policy" to [v]; an empty list (nil or not) and a list
    whose first element is nil expand to nil, and nil flattens to nil. *)
Theorem delivery_options_round_trip (m : gmap string aws.value) (v : string) :
  m !! "tls_policy" = Some (aws.VString v) -> v <> "" ->
  aws.flattenSesConfigurationSetDeliveryOptions
    (aws.expandSesConfigurationSetDeliveryOptions (Some [aws.VMap m]))
  = Some [aws.VMap {[ "tls_policy" := aws.VString v ]}]
  /\ aws.expandSesConfigurationSetDeliveryOptions None = None
  /\ aws.expandSesConfigurationSetDeliveryOptions (Some []) = None
  /\ (forall l, aws.expandSesConfigurationSetDeliveryOptions
                  (Some (aws.VNil :: l)) = None)
  /\ aws.flattenSesConfigurationSetDeliveryOptions None = None.
Proof.
  intros Hm Hv. split; [|repeat split].
  now rewrite (expand_tls_policy m v [] Hm Hv).
Qed.

Lemma delivery_options_round_trip_witness :
  aws.flattenSesConfigurationSetDeliveryOptions
    (aws.expandSesConfigurationSetDeliveryOptions
       (Some [aws.VMap {[ "tls_policy" := aws.VString "Require";
                          "other" := aws.VBool true ]}]))
  = Some [aws.VMap {[ "tls_policy" := aws.VString "Require" ]}].
Proof.
  apply (delivery_options_round_trip
           {[ "tls_policy" := aws.VString "Require"; "other" := aws.VBool true ]}
           "Require").
  - vm_compute. reflexivity.
  - discriminate.
Defined.

(** Without a usable policy the expansion has no policy, and flattening it
    gives the empty string: the round trip does not give the input back. *)
Example delivery_options_without_policy :
  aws.flattenSesConfigurationSetDeliveryOptions
    (aws.expandSesConfigurationSetDeliveryOptions (Some [aws.VMap ∅]))
  = Some [aws.VMap {[ "tls_policy" := aws.VString "" ]}]
  /\ aws.expandSesConfigurationSetDeliveryOptions (Some [aws.VString "x"]) = None.
Proof. split; reflexivity. Qed.

(** ** The convergence waiter *)

Section WaitFacts.
Context {World error T : Type}.
Variable cfg : waiter.WaitConfig.
Variable probe : StateRefreshFunc World error T.
Variable table : waiter.TransitionTable.

Import waiter.

Lemma classify_failure st :
  st ∈ failure table -> classify table st = CFailure.
Proof. intros H. unfold classify. now rewrite bool_decide_eq_true_2. Qed.

Lemma classify_target st :
  st ∈ target table -> st ∉ failure table -> classify table st = CTarget.
Proof.
  intros Ht Hf. unfold classify.
  now rewrite (bool_decide_eq_false_2 _ Hf), bool_decide_eq_true_2.
Qed.

Lemma classify_target_inv st :
  classify table st = CTarget -> st ∈ target table /\ st ∉ failure table.
Proof.
  unfold classify. repeat case_bool_decide; try discriminate. auto.
Qed.

(** One tick of the loop that takes place: the wait is not cancelled and
    the timeout has not passed. *)
Lemma poll_tick fuel elapsed unknowns last w :
  cancellationSignal cfg elapsed = false ->
  elapsed <= timeout cfg ->
  poll cfg probe table (S fuel) elapsed unknowns last w
  = match probe w with
    | (Panicked, w') => (Panicked, w')
    | (Returned (_, _, Some e), w') => (Returned (Failed (ProbeError e)), w')
    | (Returned (snapshot, status, None), w') =>
        match classify table status with
        | CFailure => (Returned (Failed (TargetNotReached status snapshot)), w')
        | CTarget => (Returned (Success snapshot), w')
        | CPending =>
            poll cfg probe table fuel (elapsed + tick cfg) 0 (status, snapshot) w'
        | CUnknown =>
            if isNil snapshot
            then poll cfg probe table fuel (elapsed + tick cfg) 0
                   (status, snapshot) w'
            else if Nat.ltb (unknownStatusTolerance cfg) (S unknowns)
            then (Returned (Failed (UnexpectedStatus status (S unknowns))), w')
            else poll cfg probe table fuel (elapsed + tick cfg) (S unknowns)
                   (status, snapshot) w'
        end
    end.
Proof.
  intros Hc Ht. cbn [poll]. rewrite Hc.
  destruct (Nat.ltb_spec (timeout cfg) elapsed) as [Hlt|_]; [lia|].
  unfold mbind, M_bind, bind.
  destruct (probe w) as [[[[snapshot status] [e|]]|] w']; try reflexivity.
  destruct (classify table status); try reflexivity.
  destruct (isNil snapshot); try reflexivity.
  now destruct (Nat.ltb _ _).
Qed.

(** After a prefix of observations that keep the wait polling, a status
    that classifies as target or failure decides the wait. *)
Lemma poll_decides k :
  forall fuel elapsed unknowns last w wk u snapshot status w',
    continuing_prefix cfg probe table k unknowns w = Some (wk, u) ->
    probe wk = (Returned (snapshot, status, None), w') ->
    (forall i, i <= k -> cancellationSignal cfg (elapsed + i * tick cfg) = false) ->
    elapsed + k * tick cfg <= timeout cfg ->
    k < fuel ->
    poll cfg probe table fuel elapsed unknowns last w
    = match classify table status with
      | CFailure => (Returned (Failed (TargetNotReached status snapshot)), w')
      | CTarget => (Returned (Success snapshot), w')
      | _ => poll cfg probe table fuel elapsed unknowns last w
      end.
Proof.
  induction k as [|k IH];
    intros fuel elapsed unknowns last w wk u snapshot status w'
      Hpre Hobs Hcan Hwin Hfuel;
    (destruct fuel as [|fuel]; [lia|]).
  - injection Hpre as <- <-.
    destruct (classify table status) eqn:Hcl; try reflexivity;
      rewrite poll_tick, Hobs, ?Hcl;
      try reflexivity; try lia;
      rewrite <- (Hcan 0) by lia; f_equal; lia.
  - cbn [continuing_prefix] in Hpre.
    destruct (probe w) as [[[[s0 st0] [e0|]]|] w1] eqn:Hfirst; try discriminate.
    assert (Hnow : cancellationSignal cfg elapsed = false).
    { rewrite <- (Hcan 0) by lia. f_equal. lia. }
    assert (Hrest : exists u1 last1,
               poll cfg probe table (S fuel) elapsed unknowns last w
               = poll cfg probe table fuel (elapsed + tick cfg) u1 last1 w1
               /\ continuing_prefix cfg probe table k u1 w1 = Some (wk, u)).
    { rewrite poll_tick, Hfirst by (assumption || lia).
      destruct (classify table st0); try discriminate.
      - now exists 0, (st0, s0).
      - destruct (isNil s0); [now exists 0, (st0, s0)|].
        destruct (Nat.ltb _ _); [discriminate|].
        now exists (S unknowns), (st0, s0). }
    destruct Hrest as (u1 & last1 & Hrest & Hpre1).
    destruct (classify table status) eqn:Hcl; try reflexivity;
      rewrite Hrest;
      rewrite (IH fuel (elapsed + tick cfg) u1 last1 w1 wk u snapshot status w'
                 Hpre1 Hobs), ?Hcl;
      try reflexivity; try lia;
      intros i Hi; rewrite <- (Hcan (S i)) by lia; f_equal; lia.
Qed.


(** A wait that succeeds returns a snapshot that the probe returned with
    a status classified as target. *)
Lemma poll_success fuel :
  forall elapsed unknowns last w snapshot w',
    poll cfg probe table fuel elapsed unknowns last w
    = (Returned (Success snapshot), w') ->
    exists n status,
      observation probe n w = Some (snapshot, status, None)
      /\ classify table status = CTarget.
Proof.
  induction fuel as [|fuel IH]; intros elapsed unknowns last w snapshot w' Hrun.
  - discriminate.
  - cbn [poll] in Hrun.
    destruct (cancellationSignal cfg elapsed); [discriminate|].
    destruct (Nat.ltb (timeout cfg) elapsed); [discriminate|].
    unfold mbind, M_bind, bind in Hrun.
    destruct (probe w) as [[[[s0 st0] [e0|]]|] w1] eqn:Hfirst; try discriminate.
    assert (Hnext : forall u l,
               poll cfg probe table fuel (elapsed + tick cfg) u l w1
               = (Returned (Success snapshot), w') ->
               exists n status,
                 observation probe n w = Some (snapshot, status, None)
                 /\ classify table status = CTarget).
    { intros u l Hu. destruct (IH _ _ _ _ _ _ Hu) as (n & status & Hn & Hc).
      exists (S n), status. split; [|exact Hc].
      cbn [observation]. now rewrite Hfirst. }
    destruct (classify table st0) eqn:Hcl0.
    + discriminate.
    + injection Hrun as <- <-. exists 0, st0. split; [|exact Hcl0].
      cbn [observation]. now rewrite Hfirst.
    + eapply Hnext, Hrun.
    + destruct (isNil s0); [eapply Hnext, Hrun|].
      destruct (Nat.ltb _ _); [discriminate|eapply Hnext, Hrun].
Qed.

(** An absent entity, reported as (nil, "", nil), keeps the wait polling
    when the empty status is neither a failure nor a target. *)
Lemma absence_keeps_polling fuel elapsed unknowns last w w' :
  cancellationSignal cfg elapsed = false ->
  elapsed <= timeout cfg ->
  probe w = (Returned (INil, "", None), w') ->
  "" ∉ failure table -> "" ∉ target table ->
  poll cfg probe table (S fuel) elapsed unknowns last w
  = poll cfg probe table fuel (elapsed + tick cfg) 0 ("", INil) w'.
Proof.
  intros Hc Ht Hobs Hf Htg. rewrite poll_tick, Hobs by assumption.
  unfold classify.
  rewrite (bool_decide_eq_false_2 _ Hf), (bool_decide_eq_false_2 _ Htg).
  now case_bool_decide.
Qed.

(** C2: failure takes precedence over target, which takes precedence
    over pending.  The classification of a status is failure exactly when
    the status is in the failure set, target exactly when it is in the
    target set and not in the failure set, and pending exactly when it is
    in the pending set and in neither of the other two.  So when the probe,
    after observations that kept the wait polling (pending, an absent
    entity, a tolerated unknown status), returns within the timeout window
    of a wait that is not cancelled a status of the failure set, [Wait]
    returns the failure error [TargetNotReached] with that status, also
    when the status is in the target set or in the pending set as well;
    when the status is in the target set and not in the failure set [Wait]
    succeeds, also when the status is in the pending set; and whatever the
    probe does, a [Wait] that succeeds returns a snapshot observed with a
    status that is in the target set and not in the failure set. *)
Theorem failure_takes_precedence (k u : nat) (w wk w' : World)
    (snapshot : iface T) (status : Status) :
  continuing_prefix cfg probe table k 0 w = Some (wk, u) ->
  probe wk = (Returned (snapshot, status, None), w') ->
  (forall i, i <= k ->
     cancellationSignal cfg (initialDelay cfg + i * tick cfg) = false) ->
  initialDelay cfg + k * tick cfg <= timeout cfg ->
  (status ∈ failure table ->
     Wait cfg probe table w
     = (Returned (Failed (TargetNotReached status snapshot)), w'))
  /\ (status ∉ failure table -> status ∈ target table ->
      Wait cfg probe table w = (Returned (Success snapshot), w'))
  /\ (forall st, classify table st = CFailure <-> st ∈ failure table)
  /\ (forall st, classify table st = CTarget
                 <-> st ∈ target table /\ st ∉ failure table)
  /\ (forall st, classify table st = CPending
                 <-> st ∈ pending table /\ (st ∉ target table)
                     /\ (st ∉ failure table))
  /\ (forall w0 s w1,
       Wait cfg probe table w0 = (Returned (Success s), w1) ->
       exists n st, observation probe n w0 = Some (s, st, None)
         /\ st ∈ target table /\ st ∉ failure table).
Proof.
  intros Hpre Hobs Hcan Hwin.
  assert (Hfuel : k < S (timeout cfg)).
  { pose proof (Nat.le_max_l 1 (pollInterval cfg)). unfold tick in Hwin. nia. }
  split; [|split; [|split; [|split; [|split]]]].
  - intros Hf. unfold Wait.
    rewrite (poll_decides k _ _ _ _ _ _ _ _ _ _ Hpre Hobs Hcan Hwin Hfuel).
    now rewrite (classify_failure status Hf).
  - intros Hf Ht. unfold Wait.
    rewrite (poll_decides k _ _ _ _ _ _ _ _ _ _ Hpre Hobs Hcan Hwin Hfuel).
    now rewrite (classify_target status Ht Hf).
  - intros st. unfold classify. repeat case_bool_decide; split;
      (discriminate || tauto || reflexivity || idtac).
  - intros st. unfold classify. repeat case_bool_decide; split;
      (discriminate || tauto || reflexivity || idtac).
  - intros st. unfold classify. repeat case_bool_decide; split;
      (discriminate || tauto || reflexivity || idtac).
  - intros w0 s w1 Hrun. unfold Wait in Hrun.
    destruct (poll_success _ _ _ _ _ _ _ Hrun) as (n & st & Hn & Hc).
    exists n, st. split; [exact Hn|]. now apply classify_target_inv.
Qed.

End WaitFacts.

(** *** The waiter on scripted probes *)


Lemma failure_takes_precedence_witness :
  waiter.Wait Script.every100ms
    (Script.scripted (Script.observed "PENDING") [Script.observed "AVAILABLE"])
    Script.misconfigured 0
  = (Returned (waiter.Failed
                 (waiter.TargetNotReached "AVAILABLE"
                    (Script.snapshot "AVAILABLE"))), 2).
Proof.
  refine (proj1 (failure_takes_precedence Script.every100ms
                   (Script.scripted (Script.observed "PENDING")
                      [Script.observed "AVAILABLE"])
                   Script.misconfigured 1 0 0 1 2
                   (Script.snapshot "AVAILABLE") "AVAILABLE" _ _ _ _) _).
  - vm_compute. reflexivity.
  - reflexivity.
  - intros i _. reflexivity.
  - vm_compute. lia.
  - apply (bool_decide_unpack _). vm_compute. exact I.
Defined.


(** The scenarios of the specification: a probe that is pending for ever
    times out one tick after the timeout, a failure status ends the wait
    with that status, and an absent entity followed by a fault of the probe
    ends it with the fault. *)
Example wait_scenarios :
  waiter.Wait Script.every100ms (Script.scripted (Script.observed "PENDING") [])
    Script.lifecycle 0
  = (Returned (waiter.Failed
                 (waiter.Timeout "PENDING" (Script.snapshot "PENDING") 400)), 4)
  /\ waiter.Wait Script.every100ms
       (Script.scripted (Script.observed "PENDING") [Script.observed "FAILED"])
       Script.lifecycle 0
     = (Returned (waiter.Failed
                    (waiter.TargetNotReached "FAILED" (Script.snapshot "FAILED"))),
        2)
  /\ waiter.Wait Script.every100ms
       (Script.scripted (T := directconnect.Connection) (INil, "", None)
          [(INil, "", Some Script.accessDenied)])
       Script.lifecycle 0
     = (Returned (waiter.Failed (waiter.ProbeError Script.accessDenied)), 2).
Proof. repeat split; vm_compute; reflexivity. Qed.

(** * Further properties of the code *)

(** ** The status probes *)

Section ProbeContracts.
Context {World error dcconn shconn lexconn : Type}.
Context {dcfinder : DirectConnectFinder World error dcconn}.
Context {shfinder : SecurityHubFinder World error shconn}.
Context {lexapi : LexModelBuilding World error lexconn}.
Variable NotFoundErr : error -> bool.
Variable ErrCodeEqualsErr : error -> string -> bool.

Import directconnect_waiter securityhub lex_waiter.

Ltac unfold_probe :=
  unfold ConnectionState, GatewayState, GatewayAssociationState,
    HostedConnectionState, LagState, statusAdminAccountAdmin,
    statusStandardsSubscription, statusBotVersion, statusLexSlotType,
    statusLexIntent, statusLexBotAlias.

(** Runs the probe of the goal on every outcome of its fetch at [w]. *)
Ltac by_fetch w :=
  unfold_probe; unfold mbind, M_bind, bind;
  match goal with
  | |- context [match ?F w with _ => _ end] =>
      destruct (F w) as [[[[o|] [e0|]]|] w1] eqn:Hfetch
  end;
  cbn [NotFound ErrCodeEquals notnil deref ret panic noSlotTypes noIntents];
  repeat match goal with
    | |- context [if ?b then _ else _] => destruct b eqn:?
    end.

(** Runs the probe of the goal on the fetch outcome [H]. *)
Ltac on_fetch H :=
  unfold_probe; rewrite (bind_returned _ _ _ _ _ H);
  cbn [NotFound ErrCodeEquals notnil deref ret panic].

(** X1: a probe never makes up an error.  Whenever one of the eleven
    probes returns a non-nil error, that error is the one its fetch
    returned in the same invocation, and the snapshot is nil. *)
Theorem probe_errors_come_from_fetch (dc : dcconn) (sh : shconn) (lx : lexconn)
    (id name version : string) :
  errors_come_from_fetch (ConnectionByID dc id) (ConnectionState NotFoundErr dc id)
  /\ errors_come_from_fetch (GatewayByID dc id) (GatewayState NotFoundErr dc id)
  /\ errors_come_from_fetch (GatewayAssociationByID dc id)
       (GatewayAssociationState NotFoundErr dc id)
  /\ errors_come_from_fetch (HostedConnectionByID dc id)
       (HostedConnectionState NotFoundErr dc id)
  /\ errors_come_from_fetch (LagByID dc id) (LagState NotFoundErr dc id)
  /\ errors_come_from_fetch (FindAdminAccount sh id)
       (statusAdminAccountAdmin sh id)
  /\ errors_come_from_fetch (FindStandardsSubscriptionByARN sh id)
       (statusStandardsSubscription NotFoundErr sh id)
  /\ errors_come_from_fetch (FindBotVersionByName lx name version)
       (statusBotVersion NotFoundErr lx name version)
  /\ errors_come_from_fetch
       (GetSlotTypeVersions lx
          (Some {| lexmodelbuildingservice.SlotTypeVersionsName := Go.String id |}))
       (statusLexSlotType ErrCodeEqualsErr lx id)
  /\ errors_come_from_fetch
       (GetIntentVersions lx
          (Some {| lexmodelbuildingservice.IntentVersionsName := Go.String id |}))
       (statusLexIntent ErrCodeEqualsErr lx id)
  /\ errors_come_from_fetch
       (GetBotAlias lx
          (Some {| lexmodelbuildingservice.AliasInputBotName := Go.String name;
                   lexmodelbuildingservice.AliasInputName := Go.String id |}))
       (statusLexBotAlias ErrCodeEqualsErr lx id name).
Proof.
  repeat match goal with |- _ /\ _ => split end;
    intros w snapshot status e w'; by_fetch w;
    intros [= ? ? ? ?]; subst; eauto.
Qed.

(** X2: a fetch that gives neither an entity nor an error.  The probes
    that read the state field of the entity (the Direct Connect probes,
    [statusStandardsSubscription] and [statusBotVersion]) dereference the
    nil pointer and panic; the probes of the Lex client test for it and
    report "NOTFOUND", as they do for an output without entries. *)
Theorem probes_on_nil_output (dc : dcconn) (sh : shconn) (lx : lexconn)
    (id name version : string) (w w' : World) :
  (ConnectionByID dc id w = (Returned (None, None), w') ->
     ConnectionState NotFoundErr dc id w = (Panicked, w'))
  /\ (GatewayByID dc id w = (Returned (None, None), w') ->
     GatewayState NotFoundErr dc id w = (Panicked, w'))
  /\ (GatewayAssociationByID dc id w = (Returned (None, None), w') ->
     GatewayAssociationState NotFoundErr dc id w = (Panicked, w'))
  /\ (HostedConnectionByID dc id w = (Returned (None, None), w') ->
     HostedConnectionState NotFoundErr dc id w = (Panicked, w'))
  /\ (LagByID dc id w = (Returned (None, None), w') ->
     LagState NotFoundErr dc id w = (Panicked, w'))
  /\ (FindStandardsSubscriptionByARN sh id w = (Returned (None, None), w') ->
     statusStandardsSubscription NotFoundErr sh id w = (Panicked, w'))
  /\ (FindBotVersionByName lx name version w = (Returned (None, None), w') ->
     statusBotVersion NotFoundErr lx name version w = (Panicked, w'))
  /\ (forall out, noSlotTypes out = true ->
     GetSlotTypeVersions lx
       (Some {| lexmodelbuildingservice.SlotTypeVersionsName := Go.String id |}) w
     = (Returned (out, None), w') ->
     statusLexSlotType ErrCodeEqualsErr lx id w
     = (Returned (INil, "NOTFOUND", None), w'))
  /\ (forall out, noIntents out = true ->
     GetIntentVersions lx
       (Some {| lexmodelbuildingservice.IntentVersionsName := Go.String id |}) w
     = (Returned (out, None), w') ->
     statusLexIntent ErrCodeEqualsErr lx id w
     = (Returned (INil, "NOTFOUND", None), w'))
  /\ (GetBotAlias lx
       (Some {| lexmodelbuildingservice.AliasInputBotName := Go.String name;
                lexmodelbuildingservice.AliasInputName := Go.String id |}) w
     = (Returned (None, None), w') ->
     statusLexBotAlias ErrCodeEqualsErr lx id name w
     = (Returned (INil, "NOTFOUND", None), w')).
Proof.
  repeat match goal with |- _ /\ _ => split end; intros;
    match goal with H : _ = (Returned _, _) |- _ => on_fetch H end;
    try reflexivity;
    match goal with H : _ = true |- _ => now rewrite H end.
Qed.


(** X4: the probes of the Lex client have three outcomes and no other.
    Whatever the client answers, a probe that returns gives "NOTFOUND" with
    a nil snapshot and no error, or "UNKNOWN" with a nil snapshot and an
    error, or "CREATED" with the output and no error; with "CREATED" the
    output is not nil and, for slot types and intents, has at least one
    entry. *)
Theorem lex_client_probes_outcomes (lx : lexconn) (id name : string)
    (w w' : World) :
  (forall r, statusLexSlotType ErrCodeEqualsErr lx id w = (Returned r, w') ->
     lex_client_outcome
       (fun o => lexmodelbuildingservice.SlotTypes o <> []) r)
  /\ (forall r, statusLexIntent ErrCodeEqualsErr lx id w = (Returned r, w') ->
     lex_client_outcome
       (fun o => lexmodelbuildingservice.Intents o <> []) r)
  /\ (forall r, statusLexBotAlias ErrCodeEqualsErr lx id name w = (Returned r, w') ->
     lex_client_outcome (fun _ => True) r).
Proof.
  repeat match goal with |- _ /\ _ => split end; intros r; by_fetch w;
    intros [= <- <-]; unfold lex_client_outcome;
    try (left; now repeat split);
    try (right; left; now repeat split);
    right; right; (split; [reflexivity|split; [reflexivity|]]);
    eexists; (split; [reflexivity|]); try exact I;
    intros Hnil; rewrite Hnil in *; discriminate.
Qed.

(** X5: the Security Hub probes never return a nil snapshot without an
    error.  Absence is a value: the nil account pointer (which, held in an
    interface, is not the nil interface) for [statusAdminAccountAdmin], the
    empty string for [statusStandardsSubscription]; so a caller that tests
    the snapshot against nil does not see absence. *)
Theorem securityhub_probes_never_nil (sh : shconn) (id : string) :
  never_nil_without_error (statusAdminAccountAdmin sh id)
  /\ never_nil_without_error (statusStandardsSubscription NotFoundErr sh id).
Proof.
  split; intros w snapshot status w'; by_fetch w;
    intros [= <- <-]; discriminate.
Qed.
End ProbeContracts.

Lemma probe_errors_come_from_fetch_witness :
  (INil : iface directconnect.Connection) = INil
  /\ exists out,
       ConnectionByID (DirectConnectFinder := Script.dc_denied) tt "dxcon-fg5678gh" 0
       = (Returned (out, Some Script.accessDenied), 1).
Proof.
  exact (proj1 (probe_errors_come_from_fetch
                  (dcfinder := Script.dc_denied) (shfinder := Script.sh_denied)
                  (lexapi := Script.lex_denied)
                  Script.NotFoundErr Script.ErrCodeEqualsErr
                  tt tt tt "dxcon-fg5678gh" "bot" "1")
           0 INil "" Script.accessDenied 1 eq_refl).
Defined.

Lemma probes_on_nil_output_witness :
  directconnect_waiter.ConnectionState (finder := Script.dc_answers None None None None None)
    Script.NotFoundErr tt "dxcon-fg5678gh" 0
  = (Panicked, 1).
Proof.
  exact (proj1 (probes_on_nil_output
                  (dcfinder := Script.dc_answers None None None None None)
                  (shfinder := Script.sh_missing) (lexapi := Script.lex_missing)
                  Script.NotFoundErr Script.ErrCodeEqualsErr
                  tt tt tt "dxcon-fg5678gh" "bot" "1" 0 1)
           eq_refl).
Defined.


Lemma lex_client_probes_outcomes_witness :
  lex_client_outcome
    (fun o : lexmodelbuildingservice.GetSlotTypeVersionsOutput =>
       lexmodelbuildingservice.SlotTypes o <> [])
    (INil, "UNKNOWN", Some Script.accessDenied).
Proof.
  exact (proj1 (lex_client_probes_outcomes (lexapi := Script.lex_denied)
                  Script.ErrCodeEqualsErr tt "slot" "bot" 0 1)
           _ eq_refl).
Defined.

Lemma securityhub_probes_never_nil_witness :
  IPtr (None : ptr securityhub_sdk.AdminAccount) <> INil.
Proof.
  exact (proj1 (securityhub_probes_never_nil (shfinder := Script.sh_missing)
                  Script.NotFoundErr tt "123456789012")
           0 (IPtr None) "NotFound" 1 eq_refl).
Defined.

(** ** Pagination of capacity providers *)

Section PagesRequests.
Context {World error conn Context : Type}.
Context {api : ECS World error conn Context}.

Import lister lister_requests.

Lemma aside_apply (fn : @PageFn World) page lastPage w
    (log : list (@Exchange error)) :
  aside fn page lastPage (w, log)
  = (fst (fn page lastPage w), (snd (fn page lastPage w), log)).
Proof. unfold aside. cbn [fst snd]. now destruct (fn page lastPage w). Qed.

(** A run under recording behaves as the run itself; the record it adds is
    chained from the input, has at most one exchange for each iteration,
    and ends, when the function returns, with the request whose input the
    caller gets back. *)
Lemma recorded_run fuel :
  forall ctx c input (fn : @PageFn World) w log0,
    let r := DescribeCapacityProvidersPagesWithContext (api := recording api)
               fuel ctx c input (aside fn) (w, log0) in
    let r0 := DescribeCapacityProvidersPagesWithContext fuel ctx c input fn w in
    fst r = fst r0 /\ fst (snd r) = snd r0
    /\ exists xs, snd (snd r) = log0 ++ xs
         /\ chained input xs
         /\ length xs <= fuel
         /\ (forall e input', fst r0 = Returned (Finished e, input') ->
               exists init output err, xs = init ++ [(input', output, err)]).
Proof.
  assert (Hnone : forall l : list (@Exchange error), l = l ++ [])
    by (intros; now rewrite app_nil_r).
  induction fuel as [|fuel IH]; intros ctx c input fn w log0.
  - simpl. split; [reflexivity|split; [reflexivity|]].
    exists []. split; [apply Hnone|]. split; [exact I|]. split; [simpl; lia|].
    discriminate.
  - intros r r0. subst r r0.
    rewrite (pages_step (recording api)), (pages_step api).
    cbn [DescribeCapacityProvidersWithContext recording fst snd].
    destruct (DescribeCapacityProvidersWithContext c ctx input w)
      as [[[[o|] [e|]]|] w1] eqn:Hfetch; cbn [fst snd].
    + split; [reflexivity|split; [reflexivity|]].
      exists [(input, Some o, Some e)]. split; [reflexivity|].
      split; [now split|]. split; [simpl; lia|].
      intros e' input' [= <- <-]. now exists [], (Some o), (Some e).
    + cbv zeta. rewrite aside_apply.
      destruct (fn (Some o) _ w1) as [[more|] w2] eqn:Hfn; cbn [fst snd].
      2:{ split; [reflexivity|split; [reflexivity|]].
          exists [(input, Some o, None)]. split; [reflexivity|].
          split; [now split|]. split; [simpl; lia|]. discriminate. }
      set (lastPage := String.eqb (StringValue (ecs.OutputNextToken o)) "") in *.
      destruct (negb more || lastPage) eqn:Hstop.
      * cbn [fst snd]. split; [reflexivity|split; [reflexivity|]].
        exists [(input, Some o, None)]. split; [reflexivity|].
        split; [now split|]. split; [simpl; lia|].
        intros e' input' [= <- <-]. now exists [], (Some o), None.
      * destruct input as [i|].
        -- specialize (IH ctx c (Some (ecs.setNextToken i (ecs.OutputNextToken o)))
                         fn w2 (log0 ++ [(Some i, Some o, None)])).
           cbv zeta in IH.
           destruct IH as (H1 & H2 & xs & H3 & H4 & H5 & H6).
           split; [exact H1|split; [exact H2|]].
           exists ((Some i, Some o, None) :: xs). split.
           { etransitivity; [exact H3|]. now rewrite <- app_assoc. }
           split.
           { split; [reflexivity|]. destruct xs as [|x xs]; [exact I|].
             exists i, o. repeat split; try assumption.
             subst lastPage. destruct more; simpl in Hstop; [|discriminate].
             now apply String.eqb_neq. }
           split; [simpl; lia|].
           intros e' input' Hfin. destruct (H6 e' input' Hfin) as (init & out & err & ->).
           now exists ((Some i, Some o, None) :: init), out, err.
        -- cbn [fst snd]. split; [reflexivity|split; [reflexivity|]].
           exists [(None, Some o, None)]. split; [reflexivity|].
           split; [now split|]. split; [simpl; lia|]. discriminate.
    + split; [reflexivity|split; [reflexivity|]].
      exists [(input, None, Some e)]. split; [reflexivity|].
      split; [now split|]. split; [simpl; lia|].
      intros e' input' [= <- <-]. now exists [], None, (Some e).
    + split; [reflexivity|split; [reflexivity|]].
      exists [(input, None, None)]. split; [reflexivity|].
      split; [now split|]. split; [simpl; lia|]. discriminate.
    + split; [reflexivity|split; [reflexivity|]].
      exists []. split; [apply Hnone|]. split; [exact I|]. split; [simpl; lia|].
      discriminate.
Qed.

(** X6: the requests of the paginated listing are chained.  The first
    request carries the caller's input; every further request is sent only
    after a page that came without error and with a non-empty next token,
    and carries the same input with that token as its next token.  A run
    makes at most one request for each iteration, and when the function
    returns, the input the caller gets back is the one of the last
    request. *)
Theorem requests_are_chained (fuel : nat) (ctx : Context) (c : conn)
    (input : ptr ecs.DescribeCapacityProvidersInput) (fn : @PageFn World)
    (w : World) :
  chained input (exchanges fuel ctx c input fn w)
  /\ length (exchanges fuel ctx c input fn w) <= fuel
  /\ (forall e input' w',
        DescribeCapacityProvidersPagesWithContext fuel ctx c input fn w
        = (Returned (Finished e, input'), w') ->
        exists init output err,
          exchanges fuel ctx c input fn w = init ++ [(input', output, err)]).
Proof.
  destruct (recorded_run fuel ctx c input fn w [])
    as (_ & _ & xs & Hlog & Hchain & Hlen & Hlast).
  unfold exchanges. rewrite Hlog. cbn [app].
  split; [exact Hchain|]. split; [exact Hlen|].
  intros e input' w' Hrun. apply (Hlast e input'). now rewrite Hrun.
Qed.

(** X7: the listing changes nothing of the caller's input but the next
    token.  Whenever the function returns (with nil, with an error, or out
    of iterations), the input after the run has the capacity providers,
    the include list and the maximum of results it had before, and a nil
    input is still nil. *)
Theorem pages_change_the_token_only (fuel : nat) :
  forall (ctx : Context) (c : conn)
    (input input' : ptr ecs.DescribeCapacityProvidersInput) (fn : @PageFn World)
    (w w' : World) r,
    DescribeCapacityProvidersPagesWithContext fuel ctx c input fn w
    = (Returned (r, input'), w') ->
    same_but_token input input'.
Proof.
  assert (Hrefl : forall i : ptr ecs.DescribeCapacityProvidersInput,
             same_but_token i i) by (intros [i|]; simpl; auto).
  induction fuel as [|fuel IH]; intros ctx c input input' fn w w' r.
  - intros [= <- <- <-]. apply Hrefl.
  - rewrite pages_step.
    destruct (DescribeCapacityProvidersWithContext c ctx input w)
      as [[[[o|] [e|]]|] w1]; try discriminate;
      try (intros [= <- <- <-]; apply Hrefl).
    cbv zeta. destruct (fn (Some o) _ w1) as [[more|] w2]; try discriminate.
    destruct (negb more || _); [intros [= <- <- <-]; apply Hrefl|].
    destruct input as [i|]; [|discriminate].
    intros Hrun. specialize (IH _ _ _ _ _ _ _ _ Hrun).
    destruct input' as [i'|]; [exact IH|contradiction].
Qed.

(** X8: a nil input survives one page only.  When the caller passes a nil
    input, the first page has a next token and the callback asks for
    more, the function panics on storing the token in the nil input: the
    second request is never sent. *)
Theorem nil_input_panics_on_second_page (fuel : nat) (ctx : Context) (c : conn)
    (fn : @PageFn World) (w w1 w2 : World) (o : ecs.DescribeCapacityProvidersOutput) :
  DescribeCapacityProvidersWithContext c ctx None w = (Returned (Some o, None), w1) ->
  StringValue (ecs.OutputNextToken o) <> "" ->
  fn (Some o) false w1 = (Returned true, w2) ->
  DescribeCapacityProvidersPagesWithContext (S fuel) ctx c None fn w
  = (Panicked, w2)
  /\ exchanges (S fuel) ctx c None fn w = [(None, Some o, None)].
Proof.
  intros Hfetch Htoken Hfn.
  apply String.eqb_neq in Htoken.
  split.
  - rewrite pages_step, Hfetch. cbv zeta. rewrite Htoken, Hfn. reflexivity.
  - unfold exchanges. rewrite (pages_step (recording api)).
    cbn [DescribeCapacityProvidersWithContext recording fst snd].
    rewrite Hfetch. cbv zeta. rewrite Htoken, aside_apply, Hfn. reflexivity.
Qed.
End PagesRequests.

Lemma requests_are_chained_witness :
  exists init output err,
    lister_requests.exchanges (api := Script.ecs_two_pages) 5 tt tt
      (Some Script.noInput) Script.every_page 0
    = init ++ [(Some (ecs.setNextToken Script.noInput (Some "page-2")),
                output, err)].
Proof.
  exact (proj2 (proj2 (requests_are_chained (api := Script.ecs_two_pages)
                         5 tt tt (Some Script.noInput) Script.every_page 0))
           None (Some (ecs.setNextToken Script.noInput (Some "page-2"))) 2
           eq_refl).
Defined.

Lemma pages_change_the_token_only_witness :
  lister_requests.same_but_token (Some Script.noInput)
    (Some (ecs.setNextToken Script.noInput (Some "page-2"))).
Proof.
  exact (pages_change_the_token_only (api := Script.ecs_two_pages)
           5 tt tt (Some Script.noInput) _ Script.every_page 0 2 _ eq_refl).
Defined.

Lemma nil_input_panics_on_second_page_witness :
  DescribeCapacityProvidersPagesWithContext (api := Script.ecs_two_pages)
    5 tt tt None Script.every_page 0
  = (Panicked, 1).
Proof.
  refine (proj1 (nil_input_panics_on_second_page (api := Script.ecs_two_pages)
                   4 tt tt Script.every_page 0 1 1 Script.page1 eq_refl _ eq_refl)).
  discriminate.
Defined.

(** ** Delivery options of an SES configuration set *)

Lemma flatten_then_expand (o : ses.DeliveryOptions) :
  aws.expandSesConfigurationSetDeliveryOptions
    (aws.flattenSesConfigurationSetDeliveryOptions (Some o))
  = Some {| ses.TlsPolicy :=
              if String.eqb (StringValue (ses.TlsPolicy o)) "" then None
              else Some (StringValue (ses.TlsPolicy o)) |}.
Proof.
  unfold aws.flattenSesConfigurationSetDeliveryOptions,
    aws.expandSesConfigurationSetDeliveryOptions.
  cbn [aws.len length Nat.eqb aws.index lookup list_lookup].
  unfold aws.mapIndex. rewrite lookup_singleton_eq.
  now destruct (String.eqb _ "").
Qed.

(** X9: expanding what was flattened gives the options back, up to an
    empty policy.  For options whose policy is not a pointer to the empty
    string, expand (flatten options) is options; a pointer to the empty
    string comes back as a nil pointer; and on every options, nil
    included, flattening the result gives what flattening the options
    gave. *)
Theorem flatten_expand_is_identity (options : ptr ses.DeliveryOptions) :
  aws.flattenSesConfigurationSetDeliveryOptions
    (aws.expandSesConfigurationSetDeliveryOptions
       (aws.flattenSesConfigurationSetDeliveryOptions options))
  = aws.flattenSesConfigurationSetDeliveryOptions options
  /\ (forall o, options = Some o -> ses.TlsPolicy o <> Some "" ->
        aws.expandSesConfigurationSetDeliveryOptions
          (aws.flattenSesConfigurationSetDeliveryOptions options)
        = options)
  /\ (forall o, options = Some o -> ses.TlsPolicy o = Some "" ->
        aws.expandSesConfigurationSetDeliveryOptions
          (aws.flattenSesConfigurationSetDeliveryOptions options)
        = Some {| ses.TlsPolicy := None |}).
Proof.
  destruct options as [[policy]|].
  - rewrite flatten_then_expand. cbn [ses.TlsPolicy]. split; [|split].
    + destruct policy as [v|]; cbn [StringValue]; [|reflexivity].
      destruct (String.eqb_spec v ""); [now subst|reflexivity].
    + intros o [= <-] Hne. cbn [ses.TlsPolicy] in Hne.
      destruct policy as [v|]; cbn [StringValue]; [|reflexivity].
      destruct (String.eqb_spec v ""); [now subst|reflexivity].
    + intros o [= <-] He. cbn [ses.TlsPolicy] in He. now subst.
  - split; [reflexivity|split; discriminate].
Qed.

Lemma flatten_expand_is_identity_witness :
  aws.expandSesConfigurationSetDeliveryOptions
    (aws.flattenSesConfigurationSetDeliveryOptions
       (Some {| ses.TlsPolicy := Some "Optional" |}))
  = Some {| ses.TlsPolicy := Some "Optional" |}.
Proof.
  refine (proj1 (proj2 (flatten_expand_is_identity
                          (Some {| ses.TlsPolicy := Some "Optional" |})))
            _ eq_refl _).
  discriminate.
Defined.

(** X10: when expanding gives options, and which.  The result is not nil
    exactly when the list has a first element that is a map; the policy of
    the result is never a pointer to the empty string, and when it is a
    pointer to [v] the map holds the string [v] under "tls_policy". *)
Theorem expand_gives_options (l : aws.slice aws.value) :
  (aws.expandSesConfigurationSetDeliveryOptions l <> None
   <-> exists m rest, l = Some (aws.VMap m :: rest))
  /\ (forall o v,
        aws.expandSesConfigurationSetDeliveryOptions l = Some o ->
        ses.TlsPolicy o = Some v ->
        v <> ""
        /\ exists m rest, l = Some (aws.VMap m :: rest)
             /\ m !! "tls_policy" = Some (aws.VString v)).
Proof.
  unfold aws.expandSesConfigurationSetDeliveryOptions.
  destruct l as [[|x rest]|]; cbn [aws.len length Nat.eqb aws.index lookup list_lookup].
  - split; [split; [congruence|intros (m & r & [=])]|discriminate].
  - destruct x as [|s|b|z|m|xs];
      try (split; [split; [congruence|intros (m' & r & [=])]|discriminate]).
    split.
    + split; [intros _; eauto|intros _].
      destruct (aws.mapIndex m "tls_policy") as [|s| | | |]; try discriminate.
      destruct (negb (String.eqb s "")); discriminate.
    + intros o v. unfold aws.mapIndex.
      destruct (m !! "tls_policy") as [[|s| | | |]|] eqn:Hm;
        try (intros [= <-]; discriminate).
      destruct (String.eqb_spec s ""); cbn [negb];
        intros [= <-]; [discriminate|].
      intros [= <-]. split; [assumption|]. now exists m, rest.
  - split; [split; [congruence|intros (m & r & [=])]|discriminate].
Qed.

Lemma expand_gives_options_witness :
  "Require" <> ""
  /\ exists m rest,
       Some [aws.VMap {[ "tls_policy" := aws.VString "Require" ]}; aws.VNil]
       = Some (aws.VMap m :: rest)
       /\ m !! "tls_policy" = Some (aws.VString "Require").
Proof.
  refine (proj2 (expand_gives_options
                   (Some [aws.VMap {[ "tls_policy" := aws.VString "Require" ]};
                          aws.VNil]))
            {| ses.TlsPolicy := Some "Require" |} "Require" _ eq_refl).
  vm_compute. reflexivity.
Defined.

(** Expanding reads the "tls_policy" entry of the first element and
    nothing else: two lists whose first elements are maps that agree on
    "tls_policy" expand to the same options, whatever their other keys and
    their further elements. *)
Theorem expand_reads_tls_policy_only (m m' : gmap string aws.value)
    (rest rest' : list aws.value) :
  m !! "tls_policy" = m' !! "tls_policy" ->
  aws.expandSesConfigurationSetDeliveryOptions (Some (aws.VMap m :: rest))
  = aws.expandSesConfigurationSetDeliveryOptions (Some (aws.VMap m' :: rest')).
Proof.
  intros Hsame. unfold aws.expandSesConfigurationSetDeliveryOptions.
  cbn [aws.len length Nat.eqb aws.index lookup list_lookup].
  unfold aws.mapIndex. now rewrite Hsame.
Qed.

Lemma expand_reads_tls_policy_only_witness :
  aws.expandSesConfigurationSetDeliveryOptions
    (Some [aws.VMap {[ "tls_policy" := aws.VString "Require";
                       "other" := aws.VBool true ]}; aws.VNil])
  = aws.expandSesConfigurationSetDeliveryOptions
      (Some [aws.VMap {[ "tls_policy" := aws.VString "Require" ]}]).
Proof.
  apply expand_reads_tls_policy_only. vm_compute. reflexivity.
Defined.

(** ** SES configuration sets: create, read and update *)

Lemma bind_ret {World A B} (a : A) (k : A -> M World B) w :
  (ret a ≫= k) w = k a w.
Proof. reflexivity. Qed.

Section SesResourceFacts.
Context {World error conn rd Time : Type}.
Context {api : SES World error conn}.
Context {sets : SESConfigurationSets World error conn Time}.
Context {data : ResourceDataOps World error rd}.

Import aws aws_ses ses_api.

Ltac start :=
  unfold resourceAwsSesConfigurationSetRead, resourceAwsSesConfigurationSetCreate,
    resourceAwsSesConfigurationSetUpdate;
  cbn [asAWSClient deref]; rewrite bind_ret.

Ltac run H := rewrite (bind_returned _ _ _ _ _ H).

(** X11: reading a configuration set that the service does not know.  When
    [DescribeConfigurationSet] fails with an error that [isAWSErr] takes
    for ConfigurationSetDoesNotExist, the read function logs a warning,
    sets the id of the resource to the empty string and returns nil; any
    other error is returned as it is, not wrapped, and nothing is written
    to the resource data. *)
Theorem read_removes_missing_configuration_set (d : rd)
    (client : AWSClient conn) (id : string) (w w1 w2 : World) out (e : error) :
  dataId d w = (Returned id, w1) ->
  DescribeConfigurationSet (sesconn client)
    (Some {| Describe_ConfigurationSetName := Go.String id;
             ConfigurationSetAttributeNames :=
               [Some "deliveryOptions"; Some "reputationOptions"] |}) w1
  = (Returned (out, Some e), w2) ->
  (isAWSErr e ses.ErrCodeConfigurationSetDoesNotExistException "" = false ->
     resourceAwsSesConfigurationSetRead d (IPtr (Some client)) w
     = (Returned (Some e), w2))
  /\ (isAWSErr e ses.ErrCodeConfigurationSetDoesNotExistException "" = true ->
      forall id' w3 w4 w5,
        dataId d w2 = (Returned id', w3) ->
        logPrintf "[WARN] SES Configuration Set (%s) not found, removing from state"
          id' w3 = (Returned tt, w4) ->
        dataSetId d "" w4 = (Returned tt, w5) ->
        resourceAwsSesConfigurationSetRead d (IPtr (Some client)) w
        = (Returned None, w5)).
Proof.
  intros Hid Hdesc. split.
  - intros Hcode. start. run Hid. run Hdesc. now rewrite Hcode.
  - intros Hcode id' w3 w4 w5 Hid' Hlog Hset. start. run Hid. run Hdesc.
    rewrite Hcode. run Hid'. run Hlog. run Hset. reflexivity.
Qed.

(** X12: creating fails fast.  When [CreateConfigurationSet] fails, the
    create function returns the error wrapped with the name of the
    configuration set and does nothing more: the id of the resource is not
    set and no further call is made. *)
Theorem create_fails_fast (d : rd) (client : AWSClient conn) (name : string)
    (w w1 w2 : World) out (e : error) :
  dataGet d "name" w = (Returned (VString name), w1) ->
  CreateConfigurationSet (sesconn client)
    (Some {| CreateConfigurationSet_ConfigurationSet :=
               Some {| Name := Some name |} |}) w1
  = (Returned (out, Some e), w2) ->
  resourceAwsSesConfigurationSetCreate d (IPtr (Some client)) w
  = (Returned (Some (Errorf "error creating SES configuration set (%s): %w"
                       name e)), w2).
Proof.
  intros Hname Hcreate. start. run Hname. cbn [asString]. rewrite bind_ret.
  run Hcreate. reflexivity.
Qed.

(** X13: the id is set before the delivery options are sent.  When the
    configuration set was created and [PutConfigurationSetDeliveryOptions]
    then fails, the create function returns that error wrapped; by then it
    has set the id of the resource to the name, so that the configuration
    set that exists is tracked. *)
Theorem create_sets_id_before_options (d : rd) (client : AWSClient conn)
    (name : string) (x : value) (rest : list value)
    (w w1 w2 w3 w4 w5 : World) out1 out2 (e : error) :
  dataGet d "name" w = (Returned (VString name), w1) ->
  CreateConfigurationSet (sesconn client)
    (Some {| CreateConfigurationSet_ConfigurationSet :=
               Some {| Name := Some name |} |}) w1
  = (Returned (out1, None), w2) ->
  dataSetId d name w2 = (Returned tt, w3) ->
  dataGetOk d "delivery_options" w3 = (Returned (VList (x :: rest), true), w4) ->
  x <> VNil ->
  PutConfigurationSetDeliveryOptions (sesconn client)
    (Some {| Put_ConfigurationSetName := Some name;
             Put_DeliveryOptions :=
               expandSesConfigurationSetDeliveryOptions (Some (x :: rest)) |}) w4
  = (Returned (out2, Some e), w5) ->
  resourceAwsSesConfigurationSetCreate d (IPtr (Some client)) w
  = (Returned
       (Some (Errorf "error adding SES configuration set (%s) delivery options: %w"
                name e)), w5).
Proof.
  intros Hname Hcreate Hset Hget Hx Hput. start. run Hname.
  cbn [asString]. rewrite bind_ret. run Hcreate. run Hset. run Hget.
  assert (Hwanted : hasDeliveryOptions (VList (x :: rest)) true w4
                    = (Returned true, w4)).
  { unfold hasDeliveryOptions. cbn [asList]. rewrite bind_ret.
    cbn [length Nat.ltb Nat.leb]. rewrite bind_ret.
    cbn [lookup list_lookup]. now destruct x. }
  run Hwanted. cbn [asList]. unfold mbind at 1, M_bind at 1, bind at 1.
  rewrite bind_ret. run Hput. reflexivity.
Qed.

(** X14: an update without changes is a read.  When none of the three
    attributes has changed, the update function makes no call to change
    the configuration set and returns what the read function returns. *)
Theorem update_without_changes_reads (d : rd) (meta : iface (AWSClient conn))
    (client : AWSClient conn) (w w1 w2 w3 : World) :
  meta = IPtr (Some client) ->
  dataHasChange d "delivery_options" w = (Returned false, w1) ->
  dataHasChange d "reputation_metrics_enabled" w1 = (Returned false, w2) ->
  dataHasChange d "sending_enabled" w2 = (Returned false, w3) ->
  resourceAwsSesConfigurationSetUpdate d meta w
  = resourceAwsSesConfigurationSetRead d meta w3.
Proof.
  intros -> H1 H2 H3. unfold resourceAwsSesConfigurationSetUpdate.
  cbn [asAWSClient deref]. rewrite bind_ret.
  run H1. rewrite bind_ret. run H2. rewrite bind_ret. run H3. rewrite bind_ret.
  reflexivity.
Qed.

(** X15: the update function reports a failure to update the sending flag
    with the text of the reputation metrics.  When only one of the two
    flags has changed and the call that updates it fails, the error
    returned wraps the cause with the same format in both cases, the one
    that names the reputation metrics. *)
Theorem update_flag_errors_share_text (d : rd) (client : AWSClient conn)
    (id id' : string) (b : bool) (w w1 w2 w3 w4 w5 w6 w7 : World) (e : error) :
  dataHasChange d "delivery_options" w = (Returned false, w1) ->
  (forall out,
     dataHasChange d "reputation_metrics_enabled" w1 = (Returned true, w2) ->
     dataId d w2 = (Returned id, w3) ->
     dataGet d "reputation_metrics_enabled" w3 = (Returned (VBool b), w4) ->
     UpdateConfigurationSetReputationMetricsEnabled (sesconn client)
       (Some {| Reputation_ConfigurationSetName := Some id;
                Reputation_Enabled := Some b |}) w4
     = (Returned (out, Some e), w5) ->
     dataId d w5 = (Returned id', w6) ->
     resourceAwsSesConfigurationSetUpdate d (IPtr (Some client)) w
     = (Returned
          (Some (Errorf
                   "error updating SES configuration set (%s) reputation metrics enabled: %w"
                   id' e)), w6))
  /\ (forall out,
      dataHasChange d "reputation_metrics_enabled" w1 = (Returned false, w2) ->
      dataHasChange d "sending_enabled" w2 = (Returned true, w3) ->
      dataId d w3 = (Returned id, w4) ->
      dataGet d "sending_enabled" w4 = (Returned (VBool b), w5) ->
      UpdateConfigurationSetSendingEnabled (sesconn client)
        (Some {| Sending_ConfigurationSetName := Some id;
                 Sending_Enabled := Some b |}) w5
      = (Returned (out, Some e), w6) ->
      dataId d w6 = (Returned id', w7) ->
      resourceAwsSesConfigurationSetUpdate d (IPtr (Some client)) w
      = (Returned
           (Some (Errorf
                    "error updating SES configuration set (%s) reputation metrics enabled: %w"
                    id' e)), w7)).
Proof.
  intros H1. split.
  - intros out H2 Hid Hget Hcall Hid'. start. run H1. rewrite bind_ret. run H2.
    unfold mbind at 1, M_bind at 1, bind at 1.
    run Hid. run Hget. cbn [asBool]. rewrite bind_ret. run Hcall. run Hid'.
    reflexivity.
  - intros out H2 H3 Hid Hget Hcall Hid'. start. run H1. rewrite bind_ret.
    run H2. rewrite bind_ret. run H3.
    unfold mbind at 1, M_bind at 1, bind at 1.
    run Hid. run Hget. cbn [asBool]. rewrite bind_ret. run Hcall. run Hid'.
    reflexivity.
Qed.

(** The test that the create function makes on the delivery options
    answers [true] exactly for a list with a first element that is not
    nil, and so for every list that expands to options; for an attribute
    that is not set it answers [false], and for a set attribute that is
    not a list it panics. *)
Lemma delivery_options_test (l : list value) (w : World) :
  (exists b,
     hasDeliveryOptions (VList l) true w = (Returned b, w)
     /\ (b = true <-> exists x rest, l = x :: rest /\ x <> VNil)
     /\ (expandSesConfigurationSetDeliveryOptions (Some l) <> None -> b = true))
  /\ (forall v, hasDeliveryOptions v false w = (Returned false, w))
  /\ (forall v, (forall l', v <> VList l') ->
        hasDeliveryOptions v true w = (Panicked, w)).
Proof.
  split; [|split].
  - unfold hasDeliveryOptions. cbn [asList]. rewrite bind_ret.
    destruct l as [|x rest]; cbn [length Nat.ltb Nat.leb].
    + exists false. split; [reflexivity|]. split.
      * split; [discriminate|intros (x & rest & [=] & _)].
      * intros Hexp. now contradict Hexp.
    + rewrite bind_ret. cbn [lookup list_lookup]. exists (notNilValue x).
      split; [reflexivity|]. split.
      * split.
        -- intros Hx. exists x, rest. split; [reflexivity|].
           intros ->. discriminate.
        -- intros (x' & rest' & [= <- <-] & Hx). now destruct x.
      * intros Hexp. destruct x; try reflexivity. now contradict Hexp.
  - reflexivity.
  - intros v Hv. unfold hasDeliveryOptions.
    destruct v as [| | | | |l']; try reflexivity.
    exfalso. now apply (Hv l').
Qed.

(** X16: the create function sends the delivery options that expanding
    accepts.  Once the configuration set is created and the id is set:
    when "delivery_options" is set to a list that
    [expandSesConfigurationSetDeliveryOptions] expands to options, the
    function calls [PutConfigurationSetDeliveryOptions] with the name and
    exactly these options, returns the error of the call, wrapped, when it
    fails, and goes on to the reputation metrics when it succeeds; when
    the attribute is not set, or is an empty list, or a list that starts
    with nil, the function makes no such call and goes on to the
    reputation metrics at once. *)
Theorem create_sends_what_expand_accepts (d : rd) (client : AWSClient conn)
    (name : string) (v : value) (ok : bool) (w w1 w2 w3 w4 : World) out1 :
  dataGet d "name" w = (Returned (VString name), w1) ->
  CreateConfigurationSet (sesconn client)
    (Some {| CreateConfigurationSet_ConfigurationSet :=
               Some {| Name := Some name |} |}) w1
  = (Returned (out1, None), w2) ->
  dataSetId d name w2 = (Returned tt, w3) ->
  dataGetOk d "delivery_options" w3 = (Returned (v, ok), w4) ->
  (forall l out perr w5,
     ok = true -> v = VList l ->
     expandSesConfigurationSetDeliveryOptions (Some l) <> None ->
     PutConfigurationSetDeliveryOptions (sesconn client)
       (Some {| Put_ConfigurationSetName := Some name;
                Put_DeliveryOptions :=
                  expandSesConfigurationSetDeliveryOptions (Some l) |}) w4
     = (Returned (out, perr), w5) ->
     (forall e, perr = Some e ->
        resourceAwsSesConfigurationSetCreate d (IPtr (Some client)) w
        = (Returned
             (Some (Errorf
                      "error adding SES configuration set (%s) delivery options: %w"
                      name e)), w5))
     /\ (perr = None ->
         forall out' e w6 w7,
           dataGet d "reputation_metrics_enabled" w5 = (Returned (VBool true), w6) ->
           UpdateConfigurationSetReputationMetricsEnabled (sesconn client)
             (Some {| Reputation_ConfigurationSetName := Some name;
                      Reputation_Enabled := Some true |}) w6
           = (Returned (out', Some e), w7) ->
           resourceAwsSesConfigurationSetCreate d (IPtr (Some client)) w
           = (Returned
                (Some (Errorf
                         "error adding SES configuration set (%s) reputation metrics enabled: %w"
                         name e)), w7)))
  /\ (ok = false \/ v = VList [] \/ (exists rest, v = VList (VNil :: rest)) ->
      forall out' e w5 w6,
        dataGet d "reputation_metrics_enabled" w4 = (Returned (VBool true), w5) ->
        UpdateConfigurationSetReputationMetricsEnabled (sesconn client)
          (Some {| Reputation_ConfigurationSetName := Some name;
                   Reputation_Enabled := Some true |}) w5
        = (Returned (out', Some e), w6) ->
        resourceAwsSesConfigurationSetCreate d (IPtr (Some client)) w
        = (Returned
             (Some (Errorf
                      "error adding SES configuration set (%s) reputation metrics enabled: %w"
                      name e)), w6)).
Proof.
  intros Hname Hcreate Hset Hget. split.
  - intros l out perr w5 -> -> Hexp Hput.
    assert (Hwanted : hasDeliveryOptions (VList l) true w4 = (Returned true, w4)).
    { destruct (proj1 (delivery_options_test l w4)) as (b & Hb & _ & Hsent).
      now rewrite Hb, (Hsent Hexp). }
    split.
    + intros e ->. start. run Hname. cbn [asString]. rewrite bind_ret.
      run Hcreate. run Hset. run Hget. run Hwanted. cbn [asList].
      unfold mbind at 1, M_bind at 1, bind at 1.
      rewrite bind_ret. run Hput. reflexivity.
    + intros -> out' e w6 w7 Hrep Hupd. start. run Hname. cbn [asString].
      rewrite bind_ret. run Hcreate. run Hset. run Hget. run Hwanted.
      cbn [asList]. unfold mbind at 1, M_bind at 1, bind at 1.
      rewrite bind_ret. run Hput. cbn [ret]. run Hrep.
      cbn [asBool]. rewrite bind_ret.
      unfold mbind at 1, M_bind at 1, bind at 1. rewrite bind_ret.
      run Hupd. reflexivity.
  - intros Hnone out' e w5 w6 Hrep Hupd.
    assert (Hwanted : hasDeliveryOptions v ok w4 = (Returned false, w4)).
    { destruct Hnone as [-> | [-> | [rest ->]]];
        [|now destruct ok|now destruct ok].
      apply (proj1 (proj2 (delivery_options_test [] w4))). }
    start. run Hname. cbn [asString]. rewrite bind_ret.
    run Hcreate. run Hset. run Hget. run Hwanted. rewrite bind_ret.
    run Hrep. cbn [asBool]. rewrite bind_ret.
    unfold mbind at 1, M_bind at 1, bind at 1. rewrite bind_ret.
    run Hupd. reflexivity.
Qed.

(** X17: what the read function does with the errors of its writes.  An
    error of the write of "delivery_options" is returned, wrapped, and
    nothing more is written; the errors of the later writes are dropped:
    for a described configuration set without reputation options the
    function writes "name" and "arn" and returns nil whatever these two
    writes answer. *)
Theorem read_write_errors (d : rd) (client : AWSClient conn) (id : string)
    (r : DescribeConfigurationSetOutput Time) (w w1 w2 w3 : World)
    (serr : option error) :
  dataId d w = (Returned id, w1) ->
  DescribeConfigurationSet (sesconn client)
    (Some {| Describe_ConfigurationSetName := Go.String id;
             ConfigurationSetAttributeNames :=
               [Some "deliveryOptions"; Some "reputationOptions"] |}) w1
  = (Returned (Some r, None), w2) ->
  dataSet d "delivery_options"
    (SetSlice (flattenSesConfigurationSetDeliveryOptions (Output_DeliveryOptions r)))
    w2
  = (Returned serr, w3) ->
  (forall e, serr = Some e ->
     resourceAwsSesConfigurationSetRead d (IPtr (Some client)) w
     = (Returned (Some (Errorfw "error setting delivery_options: %w" e)), w3))
  /\ (serr = None ->
      forall cs id' e1 e2 w4 w5 w6,
        Output_ConfigurationSet r = Some cs ->
        Output_ReputationOptions r = None ->
        dataSet d "name" (SetStringPtr (Name cs)) w3 = (Returned e1, w4) ->
        dataId d w4 = (Returned id', w5) ->
        dataSet d "arn"
          (SetString
             (arnString {| arn.Partition := partition client;
                           arn.Service := "ses";
                           arn.Region := region client;
                           arn.AccountID := accountid client;
                           arn.Resource := Sprintf "configuration-set/%s" id' |}))
          w5
        = (Returned e2, w6) ->
        resourceAwsSesConfigurationSetRead d (IPtr (Some client)) w
        = (Returned None, w6)).
Proof.
  intros Hid Hdesc Hset. split.
  - intros e ->. start. run Hid. run Hdesc. cbn [deref]. rewrite bind_ret.
    run Hset. reflexivity.
  - intros -> cs id' e1 e2 w4 w5 w6 Hcs Hrep Hname Hid' Harn. start.
    run Hid. run Hdesc. cbn [deref]. rewrite bind_ret. run Hset.
    rewrite Hcs, Hrep. cbn [deref]. rewrite bind_ret. run Hname.
    rewrite !bind_ret. run Hid'. run Harn. reflexivity.
Qed.

(** Takes the cases of the innermost scrutinee, again and again. *)
Ltac every_case :=
  repeat (match goal with
          | |- context [match ?x with _ => _ end] =>
              lazymatch x with
              | context [match _ with _ => _ end] => fail
              | _ => destruct x eqn:?
              end
          end; cbn [fst snd]).

Ltac audited :=
  cbn [CreateConfigurationSet PutConfigurationSetDeliveryOptions
       UpdateConfigurationSetReputationMetricsEnabled
       UpdateConfigurationSetSendingEnabled DescribeConfigurationSet
       Errorfw Sprintf arnString formatTime partition region accountid
       DeleteConfigurationSet logPrintf isAWSErr Errorf
       dataId dataSetId dataGet dataGetOk dataHasChange dataSet
       ses_audit.audited_api ses_audit.audited_sets ses_audit.audited_data];
  unfold ses_audit.keep, ses_audit.noting; cbn [fst snd].

(** The read function changes no configuration set: it puts nothing on
    record. *)
Lemma read_keeps_record (d : rd) (meta : iface (AWSClient conn)) s r s' :
  resourceAwsSesConfigurationSetRead (api := ses_audit.audited_api api)
    (sets := ses_audit.audited_sets sets) (data := ses_audit.audited_data data)
    d meta s = (r, s') ->
  snd s' = snd s.
Proof.
  destruct s as [w l]. unfold resourceAwsSesConfigurationSetRead.
  unfold asAWSClient, deref, mbind, M_bind, bind, ret, panic. audited.
  every_case; intros [= <- <-]; reflexivity.
Qed.

(** Putting the calls on record changes nothing else: the three functions
    return the same and leave the same world with and without it. *)
Lemma audited_read_is_read (d : rd) (meta : iface (AWSClient conn)) w l :
  let r := resourceAwsSesConfigurationSetRead (api := ses_audit.audited_api api)
             (sets := ses_audit.audited_sets sets)
             (data := ses_audit.audited_data data) d meta (w, l) in
  let r0 := resourceAwsSesConfigurationSetRead d meta w in
  fst r = fst r0 /\ fst (snd r) = snd r0.
Proof.
  unfold resourceAwsSesConfigurationSetRead.
  unfold asAWSClient, deref, mbind, M_bind, bind, ret, panic. audited.
  cbv zeta. every_case; split; reflexivity.
Qed.

Lemma audited_run_is_run (d : rd) (meta : iface (AWSClient conn)) w :
  (let r := resourceAwsSesConfigurationSetCreate (api := ses_audit.audited_api api)
              (sets := ses_audit.audited_sets sets)
              (data := ses_audit.audited_data data) d meta (w, []) in
   let r0 := resourceAwsSesConfigurationSetCreate d meta w in
   fst r = fst r0 /\ fst (snd r) = snd r0)
  /\ (let r := resourceAwsSesConfigurationSetUpdate (api := ses_audit.audited_api api)
                 (sets := ses_audit.audited_sets sets)
                 (data := ses_audit.audited_data data) d meta (w, []) in
      let r0 := resourceAwsSesConfigurationSetUpdate d meta w in
      fst r = fst r0 /\ fst (snd r) = snd r0).
Proof.
  pose proof (audited_read_is_read d meta) as Hread. cbv zeta in Hread.
  split; cbv zeta.
  - unfold resourceAwsSesConfigurationSetCreate.
    set (read := resourceAwsSesConfigurationSetRead d meta) in *.
    set (read' := resourceAwsSesConfigurationSetRead _ _) in *.
    clearbody read read'.
    unfold hasDeliveryOptions, asAWSClient, asString, asBool, asList, deref,
      mbind, M_bind, bind, ret, panic. audited.
    repeat (match goal with
            | |- context [match ?x with _ => _ end] =>
                lazymatch x with
                | context [match _ with _ => _ end] => fail
                | read _ => fail
                | read' _ => fail
                | _ => destruct x eqn:?
                end
            end; cbn [fst snd]);
      try (split; reflexivity); apply Hread.
  - unfold resourceAwsSesConfigurationSetUpdate.
    set (read := resourceAwsSesConfigurationSetRead d meta) in *.
    set (read' := resourceAwsSesConfigurationSetRead _ _) in *.
    clearbody read read'.
    unfold asAWSClient, asString, asBool, asList, deref,
      mbind, M_bind, bind, ret, panic. audited.
    repeat (match goal with
            | |- context [match ?x with _ => _ end] =>
                lazymatch x with
                | context [match _ with _ => _ end] => fail
                | read _ => fail
                | read' _ => fail
                | _ => destruct x eqn:?
                end
            end; cbn [fst snd]);
      try (split; reflexivity); apply Hread.
Qed.

(** X18: creating and updating succeed only when every call succeeded.
    With the errors of the calls that create or change a configuration set
    on record: whatever the client and the resource data answer, when the
    create function or the update function returns nil, every call on
    record returned no error (for the create function there is at least
    one, the creation), and the nil is the result of the read function,
    which they run last.  Neither function returns nil after a call that
    failed. *)
Theorem success_is_read_back (d : rd) (meta : iface (AWSClient conn))
    (w w' : World) (record : list (option error)) :
  (resourceAwsSesConfigurationSetCreate (api := ses_audit.audited_api api)
     (sets := ses_audit.audited_sets sets) (data := ses_audit.audited_data data)
     d meta (w, []) = (Returned None, (w', record)) ->
   record <> [] /\ Forall (fun err => err = None) record
   /\ exists s0,
        resourceAwsSesConfigurationSetRead (api := ses_audit.audited_api api)
          (sets := ses_audit.audited_sets sets)
          (data := ses_audit.audited_data data) d meta s0
        = (Returned None, (w', record)))
  /\ (resourceAwsSesConfigurationSetUpdate (api := ses_audit.audited_api api)
       (sets := ses_audit.audited_sets sets) (data := ses_audit.audited_data data)
       d meta (w, []) = (Returned None, (w', record)) ->
     Forall (fun err => err = None) record
     /\ exists s0,
          resourceAwsSesConfigurationSetRead (api := ses_audit.audited_api api)
            (sets := ses_audit.audited_sets sets)
            (data := ses_audit.audited_data data) d meta s0
          = (Returned None, (w', record))).
Proof.
  pose proof (read_keeps_record d meta) as Hkeep.
  split.
  - unfold resourceAwsSesConfigurationSetCreate.
    set (read := resourceAwsSesConfigurationSetRead _ _) in *. clearbody read.
    unfold hasDeliveryOptions, asAWSClient, asString, asBool, asList, deref,
      mbind, M_bind, bind, ret, panic. audited.
    repeat (match goal with
            | |- context [match ?x with _ => _ end] =>
                lazymatch x with
                | context [match _ with _ => _ end] => fail
                | read _ => fail
                | _ => destruct x eqn:?
                end
            end; cbn [fst snd]);
      try discriminate; intros Hread;
      pose proof (Hkeep _ _ _ Hread) as Hrec; cbn [snd] in Hrec; subst record;
      (split; [discriminate|]); (split; [repeat constructor|]); eauto.
  - unfold resourceAwsSesConfigurationSetUpdate.
    set (read := resourceAwsSesConfigurationSetRead _ _) in *. clearbody read.
    unfold asAWSClient, asString, asBool, asList, deref,
      mbind, M_bind, bind, ret, panic. audited.
    repeat (match goal with
            | |- context [match ?x with _ => _ end] =>
                lazymatch x with
                | context [match _ with _ => _ end] => fail
                | read _ => fail
                | _ => destruct x eqn:?
                end
            end; cbn [fst snd]);
      try discriminate; intros Hread;
      pose proof (Hkeep _ _ _ Hread) as Hrec; cbn [snd] in Hrec; subst record;
      (split; [repeat constructor|]); eauto.
Qed.
End SesResourceFacts.

Lemma read_removes_missing_configuration_set_witness :
  aws_ses.resourceAwsSesConfigurationSetRead (api := Script.ses_gone)
    (sets := ScriptSes.sets_answers
               (Some ses.ErrCodeConfigurationSetDoesNotExistException) None)
    (data := ScriptSes.data_answers []) tt (IPtr (Some Script.client)) 0
  = (Returned None, 4).
Proof.
  exact (proj2 (read_removes_missing_configuration_set (api := Script.ses_gone)
                  (sets := ScriptSes.sets_answers
                             (Some ses.ErrCodeConfigurationSetDoesNotExistException)
                             None)
                  (data := ScriptSes.data_answers [])
                  tt Script.client "example" 0 1 2 None
                  ses.ErrCodeConfigurationSetDoesNotExistException
                  eq_refl eq_refl)
           eq_refl "example" 3 3 4 eq_refl eq_refl eq_refl).
Defined.

Lemma create_fails_fast_witness :
  aws_ses.resourceAwsSesConfigurationSetCreate (api := Script.ses_denied)
    (sets := ScriptSes.sets_answers (Some Script.accessDenied) None)
    (data := ScriptSes.data_answers []) tt (IPtr (Some Script.client)) 0
  = (Returned (Some "example: AccessDeniedException"), 2).
Proof.
  refine (create_fails_fast (api := Script.ses_denied)
            (sets := ScriptSes.sets_answers (Some Script.accessDenied) None)
            (data := ScriptSes.data_answers [])
            tt Script.client "example" 0 1 2 None Script.accessDenied _ _).
  - vm_compute. reflexivity.
  - reflexivity.
Defined.

Lemma create_sets_id_before_options_witness :
  aws_ses.resourceAwsSesConfigurationSetCreate (api := Script.ses_denied)
    (sets := ScriptSes.sets_answers None (Some Script.accessDenied))
    (data := ScriptSes.data_answers []) tt (IPtr (Some Script.client)) 0
  = (Returned (Some "example: AccessDeniedException"), 5).
Proof.
  refine (create_sets_id_before_options (api := Script.ses_denied)
            (sets := ScriptSes.sets_answers None (Some Script.accessDenied))
            (data := ScriptSes.data_answers [])
            tt Script.client "example"
            (aws.VMap {[ "tls_policy" := aws.VString "Require" ]}) []
            0 1 2 3 4 5 None None Script.accessDenied _ _ _ _ _ _).
  - vm_compute. reflexivity.
  - reflexivity.
  - reflexivity.
  - vm_compute. reflexivity.
  - discriminate.
  - reflexivity.
Defined.

Lemma update_without_changes_reads_witness :
  aws_ses.resourceAwsSesConfigurationSetUpdate (api := Script.ses_denied)
    (sets := ScriptSes.sets_answers (Some Script.accessDenied) None)
    (data := ScriptSes.data_answers []) tt (IPtr (Some Script.client)) 0
  = aws_ses.resourceAwsSesConfigurationSetRead (api := Script.ses_denied)
      (sets := ScriptSes.sets_answers (Some Script.accessDenied) None)
      (data := ScriptSes.data_answers []) tt (IPtr (Some Script.client)) 3.
Proof.
  exact (update_without_changes_reads (api := Script.ses_denied)
           (sets := ScriptSes.sets_answers (Some Script.accessDenied) None)
           (data := ScriptSes.data_answers [])
           tt (IPtr (Some Script.client)) Script.client 0 1 2 3
           eq_refl eq_refl eq_refl eq_refl).
Defined.

Lemma update_flag_errors_share_text_witness :
  aws_ses.resourceAwsSesConfigurationSetUpdate (api := Script.ses_denied)
    (sets := ScriptSes.sets_answers None (Some Script.accessDenied))
    (data := ScriptSes.data_answers ["sending_enabled"])
    tt (IPtr (Some Script.client)) 0
  = (Returned (Some "example: AccessDeniedException"), 7).
Proof.
  refine (proj2 (update_flag_errors_share_text (api := Script.ses_denied)
                   (sets := ScriptSes.sets_answers None (Some Script.accessDenied))
                   (data := ScriptSes.data_answers ["sending_enabled"])
                   tt Script.client "example" "example" true
                   0 1 2 3 4 5 6 7 Script.accessDenied _)
            None _ _ _ _ _ _);
    try reflexivity; vm_compute; reflexivity.
Defined.

Lemma create_sends_what_expand_accepts_witness :
  aws_ses.resourceAwsSesConfigurationSetCreate (api := Script.ses_denied)
    (sets := ScriptSes.sets_answers None (Some Script.accessDenied))
    (data := ScriptSes.data_answers []) tt (IPtr (Some Script.client)) 0
  = (Returned (Some "example: AccessDeniedException"), 5).
Proof.
  refine (proj1 (proj1 (create_sends_what_expand_accepts
                          (api := Script.ses_denied)
                          (sets := ScriptSes.sets_answers None
                                     (Some Script.accessDenied))
                          (data := ScriptSes.data_answers [])
                          tt Script.client "example"
                          (aws.VList
                             [aws.VMap {[ "tls_policy" := aws.VString "Require" ]}])
                          true 0 1 2 3 4 None _ _ _ _)
                   [aws.VMap {[ "tls_policy" := aws.VString "Require" ]}]
                   None (Some Script.accessDenied) 5 eq_refl eq_refl _ _)
            Script.accessDenied eq_refl).
  - vm_compute. reflexivity.
  - reflexivity.
  - reflexivity.
  - vm_compute. reflexivity.
  - vm_compute. discriminate.
  - vm_compute. reflexivity.
Defined.

Lemma read_write_errors_witness :
  aws_ses.resourceAwsSesConfigurationSetRead (api := Script.ses_gone)
    (sets := ScriptSes.sets_script None (Some ScriptSes.described, None) None)
    (data := ScriptSes.data_answers []) tt (IPtr (Some Script.client)) 0
  = (Returned None, 6).
Proof.
  exact (proj2 (read_write_errors (api := Script.ses_gone)
                  (sets := ScriptSes.sets_script None
                             (Some ScriptSes.described, None) None)
                  (data := ScriptSes.data_answers [])
                  tt Script.client "example" ScriptSes.described 0 1 2 3 None
                  eq_refl eq_refl eq_refl)
           eq_refl {| ses_api.Name := Some "example" |} "example" None None
           4 5 6 eq_refl eq_refl eq_refl eq_refl eq_refl).
Defined.

Lemma success_is_read_back_witness :
  Forall (fun err : option Script.error => err = None) [None]
  /\ exists s0,
       aws_ses.resourceAwsSesConfigurationSetRead
         (api := ses_audit.audited_api Script.ses_gone)
         (sets := ses_audit.audited_sets
                    (ScriptSes.sets_script None (Some ScriptSes.described, None)
                       None))
         (data := ses_audit.audited_data
                    (ScriptSes.data_answers ["sending_enabled"]))
         tt (IPtr (Some Script.client)) s0
       = (Returned None, (12, [None])).
Proof.
  refine (proj2 (success_is_read_back (api := Script.ses_gone)
                   (sets := ScriptSes.sets_script None
                              (Some ScriptSes.described, None) None)
                   (data := ScriptSes.data_answers ["sending_enabled"])
                   tt (IPtr (Some Script.client)) 0 12 [None]) _).
  vm_compute. reflexivity.
Defined.
